(** * Order-history receipt: the financial summary calculator

    A shallow embedding of the calculator part of
    [src/features/billing/components/order-history-receipt.tsx]
    (the [OrderHistoryReceipt] component, lines 36-113, and the totals
    section of its markup, lines 283-313).

    JavaScript numbers are IEEE 754 binary64 values, so they are modelled
    by Rocq's primitive floats: the arithmetic below rounds, overflows and
    produces NaN exactly as the program does. *)

From Stdlib Require Import Floats ZArith List String Ascii Bool Lia.
From Stdlib Require Import DecimalString.
Import ListNotations.

Local Open Scope float_scope.

(** ** The JavaScript runtime the component relies on *)

Module JS.

(** The values a numeric field of an order can hold: the field is absent
    ([undefined]), [null], or a number. *)
Inductive value : Type :=
| undefined
| null
| number (f : float).

(** ECMA-262 ToBoolean: [undefined], [null], [+0], [-0] and [NaN] are falsy. *)
Definition ToBoolean (v : value) : bool :=
  match v with
  | undefined | null => false
  | number f => negb (is_zero f || is_nan f)
  end.

(** ECMA-262 ToNumber. *)
Definition ToNumber (v : value) : float :=
  match v with
  | undefined => nan
  | null => 0
  | number f => f
  end.

(** [a || b]: the left operand when it is truthy, else the right one. *)
Definition or (a b : value) : value :=
  if ToBoolean a then a else b.

(** [a * b] on values: both operands go through ToNumber. *)
Definition mul (a b : value) : float := ToNumber a * ToNumber b.

(** [a > b] on values: [ToNumber b < ToNumber a], false when either is NaN. *)
Definition gt (a b : value) : bool := ToNumber b <? ToNumber a.

(** SameValueZero on numbers, the equality of [Array.prototype.includes]:
    NaN equals NaN and [+0] equals [-0]. *)
Definition SameValueZero (x y : float) : bool :=
  (x =? y) || (is_nan x && is_nan y).

(** [arr.includes(x)] *)
Definition includes (arr : list float) (x : float) : bool :=
  existsb (fun y => SameValueZero y x) arr.

(** [arr.push(x)]: the array with [x] appended. *)
Definition push (arr : list float) (x : float) : list float := arr ++ [x].

(** [Math.min(...args)]: start from [+Infinity]; a NaN argument makes the
    result NaN; [-0] is below [+0]. *)
Fixpoint Math_min_from (lowest : float) (args : list float) : float :=
  match args with
  | [] => lowest
  | x :: rest =>
      if is_nan x then nan
      else
        let lowest :=
          match classify x, classify lowest with
          | NZero, PZero => x
          | _, _ => lowest
          end in
        Math_min_from (if x <? lowest then x else lowest) rest
  end.

Definition Math_min (args : list float) : float :=
  Math_min_from infinity args.

(** [Math.max(...args)]: start from [-Infinity]; a NaN argument makes the
    result NaN; [+0] is above [-0]. *)
Fixpoint Math_max_from (highest : float) (args : list float) : float :=
  match args with
  | [] => highest
  | x :: rest =>
      if is_nan x then nan
      else
        let highest :=
          match classify x, classify highest with
          | PZero, NZero => x
          | _, _ => highest
          end in
        Math_max_from (if highest <? x then x else highest) rest
  end.

Definition Math_max (args : list float) : float :=
  Math_max_from neg_infinity args.

(** *** Number::toString, radix 10

    A positive finite double is [m * 2^e].  ECMA-262 prints the decimal
    [s * 10^(n-k)] with the fewest digits [k] that still rounds to the
    double, the closest one to it when several have [k] digits. *)

Local Open Scope Z_scope.

(** Compare [a * 10^p] with [b * 2^q], for non-negative [a] and [b]. *)
Definition scaled_compare (a p b q : Z) : comparison :=
  (a * 10 ^ Z.max p 0 * 2 ^ Z.max (- q) 0
     ?= b * 10 ^ Z.max (- p) 0 * 2 ^ Z.max q 0).

(** Does the decimal [s * 10^p] round (to nearest, ties to even) to the
    double [m * 2^e]?  The rounding interval ends at the midpoints to the
    neighbouring doubles, stated here in units of [2^(e-2)]; the ends belong
    to it when [m] is even. *)
Definition rounds_to (m e s p : Z) : bool :=
  let lo := if (m =? 2 ^ 52) && (-1074 <? e) then 4 * m - 1 else 4 * m - 2 in
  let hi := 4 * m + 2 in
  let above := scaled_compare s p lo (e - 2) in
  let below := scaled_compare s p hi (e - 2) in
  match above, below with
  | Gt, Lt => true
  | Lt, _ | _, Gt => false
  | _, _ => Z.even m
  end.

(** The [n] with [10^(n-1) <= m * 2^e < 10^n], searched upwards from [n]. *)
Fixpoint magnitude (fuel : nat) (m e n : Z) : Z :=
  match fuel with
  | O => n
  | S fuel =>
      match scaled_compare 1 n m e with
      | Gt => n
      | _ => magnitude fuel m e (n + 1)
      end
  end.

(** The shortest digits [(n, k, s)] of [m * 2^e], trying [k], [k+1], ... *)
Fixpoint shortest (fuel : nat) (m e n0 k : Z) : Z * Z * Z :=
  let num := m * 2 ^ Z.max e 0 * 10 ^ Z.max (k - n0) 0 in
  let den := 2 ^ Z.max (- e) 0 * 10 ^ Z.max (n0 - k) 0 in
  let s_low := num / den in
  let low := (n0, k, s_low) in
  let high :=
    if s_low + 1 <? 10 ^ k then (n0, k, s_low + 1)
    else (n0 + 1, k, 10 ^ (k - 1)) in
  let ok '(n, k, s) := rounds_to m e s (n - k) in
  match fuel with
  | O => low
  | S fuel =>
      match ok low, ok high with
      | true, true =>
          match 2 * num ?= (2 * s_low + 1) * den with
          | Lt => low
          | Gt => high
          | Eq => if Z.even s_low then low else high
          end
      | true, false => low
      | false, true => high
      | false, false => shortest fuel m e n0 (k + 1)
      end
  end.

Definition decimal (z : Z) : string :=
  NilZero.string_of_uint (N.to_uint (Z.to_N z)).

Local Open Scope string_scope.
Local Open Scope Z_scope.

Fixpoint zeros (n : nat) : string :=
  match n with
  | O => ""
  | S n => "0" ++ zeros n
  end.

(** Steps 6 to 10 of Number::toString: lay the digits out. *)
Definition layout (n k s : Z) : string :=
  let digits := decimal s in
  if (k <=? n) && (n <=? 21) then
    digits ++ zeros (Z.to_nat (n - k))
  else if (0 <? n) && (n <=? 21) then
    substring 0 (Z.to_nat n) digits ++ "."
      ++ substring (Z.to_nat n) (Z.to_nat (k - n)) digits
  else if (-6 <? n) && (n <=? 0) then
    "0." ++ zeros (Z.to_nat (- n)) ++ digits
  else
    let sign := if n - 1 <? 0 then "-" else "+" in
    let exponent := decimal (Z.abs (n - 1)) in
    if k =? 1 then digits ++ "e" ++ sign ++ exponent
    else substring 0 1 digits ++ "." ++ substring 1 (Z.to_nat (k - 1)) digits
           ++ "e" ++ sign ++ exponent.

(** [x.toString()] and the string a template literal makes of a number. *)
Definition Number_toString (x : float) : string :=
  match Prim2SF x with
  | S754_nan => "NaN"
  | S754_zero _ => "0"
  | S754_infinity sign => if sign then "-Infinity" else "Infinity"
  | S754_finite sign m e =>
      let m := Z.pos m in
      let n0 := magnitude 700 m e (-330) in
      let '(n, k, s) := shortest 17 m e n0 1 in
      (if sign then "-" else "") ++ layout n k s
  end.

Local Close Scope string_scope.
Local Close Scope Z_scope.

(** Completion of a call: a value, or a thrown exception. *)
Inductive exn : Type :=
| TypeError.

Inductive completion (A : Type) : Type :=
| Normal (a : A)
| Throw (e : exn).

Arguments Normal {A} a.
Arguments Throw {A} e.

Definition bind {A B : Type} (c : completion A) (k : A -> completion B)
  : completion B :=
  match c with
  | Normal a => k a
  | Throw e => Throw e
  end.

End JS.

Import JS.

Notation "x <- c ;; k" := (JS.bind c (fun x => k))
  (at level 61, c at next level, right associativity).

(** [arr.reduce(f, init)] with a callback that may throw. *)
Fixpoint reduce {A B : Type} (f : A -> B -> completion A) (arr : list B)
  (init : A) : completion A :=
  match arr with
  | [] => Normal init
  | x :: rest => acc <- f init x ;; reduce f rest acc
  end.

(** ** Data model (the interfaces at the top of the source file) *)

Record CartItem : Type := {
  name : string;
  price : value;
  quantity : value;
  description : option string;
  sgst : value;
  cgst : value
}.

(** An element of the cart array: an item object, or [None] for a [null]
    or [undefined] element (the source reads elements with [item?.]). *)
Definition CartEntry : Type := option CartItem.

(** The fields of an order the calculator reads; [cart] is [None] when the
    order has no cart. *)
Record Order : Type := {
  order_id : Z;
  invoice_number : string;
  cart : option (list CartEntry);
  discount_percentage : value
}.

(** ** The calculator (source lines 44-113) *)

(** [order.cart || []] *)
Definition cart_or_empty (order : Order) : list CartEntry :=
  match cart order with
  | Some items => items
  | None => []
  end.

(** [item?.quantity] and [item?.price]: [undefined] when the element is
    [null] or [undefined]. *)
Definition opt_quantity (item : CartEntry) : value :=
  match item with
  | Some it => quantity it
  | None => undefined
  end.

Definition opt_price (item : CartEntry) : value :=
  match item with
  | Some it => price it
  | None => undefined
  end.

(** The callback of the first reduce:
    [(item?.quantity || 0) * (item?.price || 0)]. *)
Definition lineTotal (item : CartEntry) : float :=
  JS.mul (JS.or (opt_quantity item) (number 0))
         (JS.or (opt_price item) (number 0)).

(** Lines 45-49. *)
Definition totalAmount (order : Order) : float :=
  fold_left (fun sum item => sum + lineTotal item) (cart_or_empty order) 0.

(** Lines 52-54. *)
Definition discountAmount (order : Order) : float :=
  if ToBoolean (discount_percentage order)
  then totalAmount order * (ToNumber (discount_percentage order) / 100)
  else 0.

(** Line 57. *)
Definition finalAmount (order : Order) : float :=
  totalAmount order - discountAmount order.

(** [v || 0] for a rate field, as a number: [v] itself when it is truthy
    (only a number is), else [0]. *)
Definition rate_or_zero (v : value) : float :=
  ToNumber (JS.or v (number 0)).

Record ItemGST : Type := {
  item_sgst : float;
  item_cgst : float
}.

(** Lines 60-70.  Reading [item.price] of a [null] or [undefined] element
    throws a TypeError. *)
Definition calculateItemGST (item : CartEntry) : completion ItemGST :=
  match item with
  | None => Throw TypeError
  | Some it =>
      let itemPrice := price it in
      let itemQuantity := quantity it in
      let baseAmount := JS.mul itemPrice itemQuantity in
      Normal {| item_sgst := (baseAmount * rate_or_zero (sgst it)) / 100;
                item_cgst := (baseAmount * rate_or_zero (cgst it)) / 100 |}
  end.

Record GstSummary : Type := {
  baseAmount : float;
  sgstAmount : float;
  cgstAmount : float;
  sgstRates : list float;
  cgstRates : list float
}.

(** [if (rate > 0 && !rates.includes(rate)) rates.push(rate)] *)
Definition track_rate (rates : list float) (rate : float) : list float :=
  if (0 <? rate) && negb (includes rates rate) then push rates rate
  else rates.

(** The callback of the second reduce, lines 74-95. *)
Definition gstStep (summary : GstSummary) (item : CartEntry)
  : completion GstSummary :=
  gst <- calculateItemGST item ;;
  match item with
  | None => Throw TypeError
  | Some it =>
      let itemTotal := JS.mul (quantity it) (price it) in
      let sgstRate := rate_or_zero (sgst it) in
      let cgstRate := rate_or_zero (cgst it) in
      let sgstRates' := track_rate (sgstRates summary) sgstRate in
      let cgstRates' := track_rate (cgstRates summary) cgstRate in
      Normal {| baseAmount := baseAmount summary + itemTotal;
                sgstAmount := sgstAmount summary + item_sgst gst;
                cgstAmount := cgstAmount summary + item_cgst gst;
                sgstRates := sgstRates';
                cgstRates := cgstRates' |}
  end.

(** The initial value of the second reduce, lines 96-102. *)
Definition emptySummary : GstSummary :=
  {| baseAmount := 0; sgstAmount := 0; cgstAmount := 0;
     sgstRates := []; cgstRates := [] |}.

(** Lines 73-103. *)
Definition gstSummary (order : Order) : completion GstSummary :=
  reduce gstStep (cart_or_empty order) emptySummary.

(** Lines 109-113. *)
Definition formatGSTRates (rates : list float) : string :=
  match rates with
  | [] => "0"
  | [r] => Number_toString r
  | _ => (Number_toString (Math_min rates) ++ "-"
            ++ Number_toString (Math_max rates))%string
  end.

(** ** The totals section of the markup (source lines 283-313)

    The numbers each row shows, before [toFixed(2)] formats them. *)
Record Totals : Type := {
  shownTotalAmount : float;
  shownDiscount : option float;
  shownTaxableValue : float;
  shownCgstRates : string;
  shownCgstAmount : float;
  shownSgstRates : string;
  shownSgstAmount : float;
  shownTotalTax : float;
  shownPayable : float
}.

(** The component: [None] as argument is an absent order, [Normal None]
    is the [return null] of line 41. *)
Definition OrderHistoryReceipt (order : option Order)
  : completion (option Totals) :=
  match order with
  | None => Normal None
  | Some order =>
      summary <- gstSummary order ;;
      Normal (Some
        {| shownTotalAmount := totalAmount order;
           shownDiscount :=
             if JS.gt (discount_percentage order) (number 0)
             then Some (discountAmount order) else None;
           shownTaxableValue :=
             finalAmount order - (cgstAmount summary + sgstAmount summary);
           shownCgstRates := formatGSTRates (cgstRates summary);
           shownCgstAmount := cgstAmount summary;
           shownSgstRates := formatGSTRates (sgstRates summary);
           shownSgstAmount := sgstAmount summary;
           shownTotalTax := cgstAmount summary + sgstAmount summary;
           shownPayable := finalAmount order |})
  end.

(** ** Sample orders *)

Definition item (p q a b : value) : CartItem :=
  {| name := "item"; price := p; quantity := q; description := None;
     sgst := a; cgst := b |}.

Definition order_of (items : list CartEntry) (d : value) : Order :=
  {| order_id := 1; invoice_number := "INV-1"; cart := Some items;
     discount_percentage := d |}.

(** The cart of the spec's scenarios: one item, price 100, quantity 2,
    9% for each tax component. *)
Definition scenario_cart : list CartEntry :=
  [Some (item (number 100) (number 2) (number 9) (number 9))].

(** Items with component-A rates 5, 5 and 12, and their cart. *)
Definition dedup_items : list CartItem :=
  [item (number 10) (number 1) (number 5) (number 5);
   item (number 20) (number 1) (number 5) (number 12);
   item (number 30) (number 1) (number 12) (number 5)].

Definition dedup_cart : list CartEntry := map Some dedup_items.

(** An item with a quantity and rates but no price. *)
Definition priceless_cart : list CartEntry :=
  [Some (item undefined (number 2) (number 9) (number 9))].

(** A cart whose item has a NaN quantity. *)
Definition nan_cart : list CartEntry :=
  [Some (item (number 1) (number nan) (number 9) (number 9))].

(** A cart with an item without a price, a [null] element, an item without
    rates and an item with a fractional price. *)
Definition mixed_cart : list CartEntry :=
  [Some (item undefined (number 2) (number 9) (number 9));
   None;
   Some (item (number 5) (number 3) undefined undefined);
   Some (item (number 2.5) (number 3) (number 6) (number 6))].

(** The order with another discount percentage. *)
Definition with_discount (order : Order) (d : value) : Order :=
  {| order_id := order_id order; invoice_number := invoice_number order;
     cart := cart order; discount_percentage := d |}.

(** ** Definitions the statements use *)

(** SameValueZero as a proposition: equal, or both a zero. *)
Definition same_value_zero (x y : float) : Prop :=
  x = y \/ (is_zero x = true /\ is_zero y = true).

(** The number is [-0]. *)
Definition neg_zero (x : float) : Prop := Prim2SF x = S754_zero true.

(** The sum of a sequence of numbers, added left to right from 0 as a
    reduce does (binary64 addition is not associative). *)
Definition sum_left (terms : list float) : float :=
  fold_left PrimFloat.add terms 0.

(** A field is present when it holds a number; NaN is not a number. *)
Definition present (v : value) : bool :=
  match v with
  | number f => negb (is_nan f)
  | undefined | null => false
  end.

(** In the spec's words: a field's number, a missing field counting as 0. *)
Definition missing_as_zero (v : value) : float :=
  if present v then ToNumber v else 0.

(** In the spec's words, [computeTotalAmount(cart)]: the sum over the items
    of quantity times price, a missing quantity or price counting as 0,
    and 0 for an absent cart.  It reads the [quantity] and [price] fields of
    each item; a [null] element has neither and counts as 0 times 0. *)
Definition spec_computeTotalAmount (cart : option (list CartEntry)) : float :=
  match cart with
  | None => 0
  | Some items =>
      sum_left
        (map (fun entry =>
                match entry with
                | Some it =>
                    missing_as_zero (quantity it) * missing_as_zero (price it)
                | None => 0
                end) items)
  end.

(** In the spec's words, a rate set: the distinct values of a sequence in
    the order each is first met. *)
Fixpoint first_seen (rates : list float) : list float :=
  match rates with
  | [] => []
  | r :: rest =>
      r :: filter (fun r' => negb (SameValueZero r r')) (first_seen rest)
  end.

(** The strictly positive rates of a sequence. *)
Definition positive_rates (rates : list float) : list float :=
  filter (fun r => 0 <? r) rates.

(** The item objects of a cart, when every element is one. *)
Fixpoint objects (entries : list CartEntry) : option (list CartItem) :=
  match entries with
  | [] => Some []
  | None :: _ => None
  | Some it :: rest => option_map (cons it) (objects rest)
  end.

(** The second reduce over item objects, where its callback cannot throw:
    each field of the summary is a fold of its own. *)
Definition summarize (items : list CartItem) (init : GstSummary) : GstSummary :=
  {| baseAmount :=
       fold_left (fun acc it => acc + JS.mul (quantity it) (price it))
         items (baseAmount init);
     sgstAmount :=
       fold_left
         (fun acc it =>
            acc + (JS.mul (price it) (quantity it) * rate_or_zero (sgst it))
                  / 100)
         items (sgstAmount init);
     cgstAmount :=
       fold_left
         (fun acc it =>
            acc + (JS.mul (price it) (quantity it) * rate_or_zero (cgst it))
                  / 100)
         items (cgstAmount init);
     sgstRates :=
       fold_left (fun rates it => track_rate rates (rate_or_zero (sgst it)))
         items (sgstRates init);
     cgstRates :=
       fold_left (fun rates it => track_rate rates (rate_or_zero (cgst it)))
         items (cgstRates init) |}.

(** ** The rest of the markup

    The invoice, date, customer and payment rows and the items section
    (source lines 221-224, 229-258, 267-280 and 314-319). *)

Record CustomerDetails : Type := {
  doctorName : option string;
  customerName : option string;
  customerMobile : option string
}.

(** The descriptive fields of an order that only the markup reads; [None]
    is an absent (or [null]) field. *)
Record OrderInfo : Type := {
  order_date : option string;
  order_time : option string;
  customerDetails : option CustomerDetails;
  paymentMethod : option string
}.

(** A string as a condition: truthy when it is present and not empty. *)
Definition truthy_string (s : option string) : bool :=
  match s with
  | Some s => negb (s =? "")%string
  | None => false
  end.

(** Line 223: [order.invoice_number || 'N/A']. *)
Definition invoiceText (order : Order) : string :=
  if (invoice_number order =? "")%string then "N/A"
  else invoice_number order.

(** Lines 232-234: date and time joined by a space when both are truthy,
    else ['N/A']. *)
Definition dateText (info : OrderInfo) : string :=
  match order_date info, order_time info with
  | Some d, Some t =>
      if truthy_string (Some d) && truthy_string (Some t)
      then (d ++ " " ++ t)%string else "N/A"%string
  | _, _ => "N/A"%string
  end.

(** [{field && (<div><span>label</span><span>{field}</span></div>)}]: one
    row when the field is truthy, nothing otherwise. *)
Definition labelled_row (label : string) (field : option string)
  : list (string * string) :=
  match field with
  | Some s => if (s =? "")%string then [] else [(label, s)]
  | None => []
  end.

(** Lines 237-258. *)
Definition customerRows (info : OrderInfo) : list (string * string) :=
  match customerDetails info with
  | None => []
  | Some c =>
      labelled_row "Customer:" (customerName c)
        ++ labelled_row "Phone:" (customerMobile c)
        ++ labelled_row "Doctor:" (doctorName c)
  end.

(** Lines 314-319, the payment method row. *)
Definition paymentRows (info : OrderInfo) : list (string * string) :=
  labelled_row "Payment Method:" (paymentMethod info).

(** A row of the items section, lines 267-280; the amount is the number
    before [toFixed(2)] formats it. *)
Record ItemRow : Type := {
  row_name : string;
  row_description : string;
  row_quantity : float;
  row_amount : float
}.

Definition itemRow (entry : CartEntry) : ItemRow :=
  {| row_name :=
       match entry with
       | Some it => if (name it =? "")%string then "N/A"%string else name it
       | None => "N/A"%string
       end;
     row_description :=
       match entry with
       | Some {| description := Some d |} => d
       | _ => ""%string
       end;
     row_quantity := ToNumber (JS.or (opt_quantity entry) (number 0));
     row_amount :=
       JS.mul (JS.or (opt_quantity entry) (number 0))
              (JS.or (opt_price entry) (number 0)) |}.

(** An item without a name or a quantity, and a named item. *)
Definition unnamed_cart : list CartEntry :=
  [Some {| name := ""; price := number 4; quantity := undefined;
           description := Some "loose"%string;
           sgst := undefined; cgst := undefined |};
   Some (item (number 100) (number 2) (number 9) (number 9))].

(** What the rest of the markup shows. *)
Record Details : Type := {
  shownInvoice : string;
  shownDate : string;
  shownCustomerRows : list (string * string);
  shownItemRows : list ItemRow;
  shownPaymentRows : list (string * string)
}.

(** The rest of the markup as the component renders it: the markup of
    lines 199-331 is evaluated after the two reduces, so nothing is shown
    when the second reduce throws. *)
Definition receiptDetails (order : Order) (info : OrderInfo)
  : completion Details :=
  summary <- gstSummary order ;;
  Normal {| shownInvoice := invoiceText order;
            shownDate := dateText info;
            shownCustomerRows := customerRows info;
            shownItemRows := map itemRow (cart_or_empty order);
            shownPaymentRows := paymentRows info |}.

(** Sample details: a customer with a name, an empty phone and a doctor. *)
Definition sample_info : OrderInfo :=
  {| order_date := Some "2024-01-05"%string;
     order_time := Some "10:30"%string;
     customerDetails :=
       Some {| doctorName := Some "Rao"%string;
               customerName := Some "Asha"%string;
               customerMobile := Some ""%string |};
     paymentMethod := Some "cash"%string |}.

(** ** Facts about binary64 numbers

    The primitive operations are specified by [Prim2SF] and the functions
    of [SpecFloat]; the lemmas below are read off that specification. *)

Module FloatFacts.

Lemma pos_compare_cont m1 m2 : Pos.compare_cont Eq m1 m2 = Pos.compare m1 m2.
Proof. reflexivity. Qed.

Ltac sign_cases :=
  repeat match goal with
  | s : bool |- _ => destruct s
  end;
  cbn in *; try discriminate; try reflexivity; try congruence.

Ltac compare_cases :=
  intros;
  repeat first
    [ progress rewrite pos_compare_cont in *
    | match goal with
      | H : context [Z.compare ?a ?b] |- _ =>
          destruct (Z.compare_spec a b); try discriminate
      | |- context [Z.compare ?a ?b] =>
          destruct (Z.compare_spec a b)
      | H : context [Pos.compare ?a ?b] |- _ =>
          destruct (Pos.compare_spec a b); cbn in H; try discriminate
      | |- context [Pos.compare ?a ?b] =>
          destruct (Pos.compare_spec a b); cbn
      end ];
  subst; try reflexivity; try lia; try congruence.

(** *** The order of [SFcompare] *)

Lemma SFcompare_Eq a b :
  SFcompare a b = Some Eq ->
  a = b \/ (exists s t, a = S754_zero s /\ b = S754_zero t).
Proof.
  destruct a as [sa|sa| |sa ma ea], b as [sb|sb| |sb mb eb]; cbn;
    try discriminate; intros H.
  - right; eauto.
  - destruct sb; discriminate.
  - destruct sb; discriminate.
  - destruct sa; discriminate.
  - left. destruct sa, sb; try discriminate; reflexivity.
  - destruct sa; discriminate.
  - destruct sa; discriminate.
  - destruct sb; discriminate.
  - left. destruct sa, sb; try discriminate; injection H as H; compare_cases.
Qed.

Lemma SFcompare_refl a : a <> S754_nan -> SFcompare a a = Some Eq.
Proof.
  destruct a as [sa|sa| |sa ma ea]; cbn; intros H; try congruence.
  - destruct sa; reflexivity.
  - destruct sa; rewrite Z.compare_refl, pos_compare_cont, Pos.compare_refl;
      reflexivity.
Qed.

Lemma SFleb_refl a : a <> S754_nan -> SFleb a a = true.
Proof. intros H. unfold SFleb. now rewrite SFcompare_refl. Qed.

Lemma SFltb_SFleb a b : SFltb a b = true -> SFleb a b = true.
Proof.
  unfold SFltb, SFleb. destruct (SFcompare a b) as [[ | | ] | ];
    congruence.
Qed.

Lemma SFleb_total a b :
  a <> S754_nan -> b <> S754_nan -> SFltb a b = false -> SFleb b a = true.
Proof.
  unfold SFltb, SFleb.
  destruct a as [sa|sa| |sa ma ea], b as [sb|sb| |sb mb eb]; cbn;
    try congruence; intros _ _; sign_cases; compare_cases.
Qed.

Lemma SFleb_trans a b c :
  SFleb a b = true -> SFleb b c = true -> SFleb a c = true.
Proof.
  unfold SFleb.
  destruct a as [sa|sa| |sa ma ea], b as [sb|sb| |sb mb eb],
    c as [sc|sc| |sc mc ec]; cbn; try discriminate;
    intros H1 H2; sign_cases; compare_cases.
Qed.

(** *** The comparisons of primitive floats *)

Lemma is_nan_false x : is_nan x = false <-> Prim2SF x <> S754_nan.
Proof.
  unfold is_nan. rewrite FloatAxioms.eqb_spec. unfold SFeqb. split.
  - intros H E. rewrite E in H. discriminate.
  - intros H. now rewrite SFcompare_refl.
Qed.

Lemma is_nan_true x : is_nan x = true <-> x = nan.
Proof.
  split.
  - intros H. apply Prim2SF_inj.
    destruct (Prim2SF x) eqn:E; try reflexivity;
      assert (N : is_nan x = false)
        by (apply is_nan_false; rewrite E; discriminate);
      congruence.
  - intros ->. reflexivity.
Qed.

Lemma leb_refl x : is_nan x = false -> (x <=? x) = true.
Proof.
  intros H. rewrite leb_spec. apply SFleb_refl. now apply is_nan_false.
Qed.

Lemma ltb_leb x y : (x <? y) = true -> (x <=? y) = true.
Proof. rewrite ltb_spec, leb_spec. apply SFltb_SFleb. Qed.

Lemma leb_total x y :
  is_nan x = false -> is_nan y = false -> (x <? y) = false ->
  (y <=? x) = true.
Proof.
  rewrite ltb_spec, leb_spec, !is_nan_false. apply SFleb_total.
Qed.

Lemma leb_trans x y z :
  (x <=? y) = true -> (y <=? z) = true -> (x <=? z) = true.
Proof. rewrite !leb_spec. apply SFleb_trans. Qed.

Lemma is_zero_spec x :
  is_zero x = true <-> exists s, Prim2SF x = S754_zero s.
Proof.
  unfold is_zero. rewrite FloatAxioms.eqb_spec. unfold SFeqb.
  change (Prim2SF PrimFloat.zero) with (S754_zero false). split.
  - intros H. destruct (SFcompare (Prim2SF x) (S754_zero false))
      as [[ | | ] | ] eqn:E; try discriminate.
    apply SFcompare_Eq in E as [E | (s & t & E & _)]; eauto.
  - intros [s ->]. reflexivity.
Qed.

(** *** SameValueZero is Leibniz equality up to the sign of zero *)

Lemma SameValueZero_spec x y :
  SameValueZero x y = true <-> same_value_zero x y.
Proof.
  unfold SameValueZero, same_value_zero. split.
  - intros H. apply orb_true_iff in H as [H | H].
    + rewrite FloatAxioms.eqb_spec in H. unfold SFeqb in H.
      destruct (SFcompare (Prim2SF x) (Prim2SF y)) as [[ | | ] | ] eqn:E;
        try discriminate.
      apply SFcompare_Eq in E as [E | (s & t & Ex & Ey)].
      * left. now apply Prim2SF_inj.
      * right. rewrite !is_zero_spec. eauto.
    + apply andb_true_iff in H as [Hx Hy].
      apply is_nan_true in Hx, Hy. left. congruence.
  - intros [-> | [Hx Hy]].
    + destruct (is_nan y) eqn:N.
      * now rewrite orb_true_r.
      * unfold is_nan in N. apply negb_false_iff in N. now rewrite N.
    + apply is_zero_spec in Hx as [s Hx], Hy as [t Hy].
      rewrite FloatAxioms.eqb_spec, Hx, Hy. reflexivity.
Qed.

Lemma same_value_zero_refl x : same_value_zero x x.
Proof. now left. Qed.

Lemma same_value_zero_sym x y : same_value_zero x y -> same_value_zero y x.
Proof. intros [-> | [? ?]]; [now left | now right]. Qed.

Lemma same_value_zero_trans x y z :
  same_value_zero x y -> same_value_zero y z -> same_value_zero x z.
Proof.
  intros [-> | [Hx Hy]] [<- | [Hy' Hz]]; unfold same_value_zero; auto.
Qed.

(** *** A sum of two numbers is [-0] only when both are *)

Local Open Scope Z_scope.

Lemma digits2_pos_bounds m :
  2 ^ (Z.pos (digits2_pos m) - 1) <= Z.pos m < 2 ^ Z.pos (digits2_pos m).
Proof.
  induction m as [m IH | m IH | ]; cbn [digits2_pos].
  - rewrite Pos2Z.inj_succ.
    replace (Z.succ (Z.pos (digits2_pos m)) - 1) with (Z.succ (Z.pos (digits2_pos m) - 1)) by lia.
    rewrite !Z.pow_succ_r by lia. lia.
  - rewrite Pos2Z.inj_succ.
    replace (Z.succ (Z.pos (digits2_pos m)) - 1) with (Z.succ (Z.pos (digits2_pos m) - 1)) by lia.
    rewrite !Z.pow_succ_r by lia. lia.
  - cbn. lia.
Qed.

Lemma shr_1_m mrs : 0 <= shr_m mrs -> shr_m (shr_1 mrs) = shr_m mrs / 2.
Proof.
  destruct mrs as [m r s]. cbn [shr_m]. intros H.
  destruct m as [ | [p | p | ] | p]; try lia; cbn [shr_1 shr_m].
  - reflexivity.
  - rewrite Pos2Z.inj_xI. apply Z.div_unique with (r := 1); lia.
  - rewrite Pos2Z.inj_xO. apply Z.div_unique with (r := 0); lia.
  - reflexivity.
Qed.

Lemma iter_shr_1_m p : forall mrs,
  0 <= shr_m mrs ->
  shr_m (SpecFloat.iter_pos shr_1 p mrs) = shr_m mrs / 2 ^ Z.pos p.
Proof.
  induction p as [p IH | p IH | ]; intros mrs H; cbn [SpecFloat.iter_pos].
  - assert (H1 : 0 <= shr_m (shr_1 mrs))
      by (rewrite shr_1_m by auto; apply Z.div_pos; lia).
    assert (H2 : 0 <= shr_m (SpecFloat.iter_pos shr_1 p (shr_1 mrs)))
      by (rewrite IH by auto; apply Z.div_pos; lia).
    rewrite IH by auto. rewrite IH by auto. rewrite shr_1_m by auto.
    rewrite !Z.div_div by lia. f_equal.
    replace (Z.pos p~1) with (1 + Z.pos p + Z.pos p) by lia.
    rewrite !Z.pow_add_r by lia. change (2 ^ 1) with 2. ring.
  - assert (H1 : 0 <= shr_m (SpecFloat.iter_pos shr_1 p mrs))
      by (rewrite IH by auto; apply Z.div_pos; lia).
    rewrite IH by auto. rewrite IH by auto.
    rewrite !Z.div_div by lia. f_equal.
    replace (Z.pos p~0) with (Z.pos p + Z.pos p) by lia.
    rewrite !Z.pow_add_r by lia. ring.
  - now rewrite shr_1_m.
Qed.

Lemma shr_fexp_pos m e l :
  0 < m -> -1074 <= e ->
  0 < shr_m (fst (shr_fexp prec emax m e l)) /\
  -1074 <= snd (shr_fexp prec emax m e l).
Proof.
  intros Hm He. unfold shr_fexp, shr.
  assert (Hr : shr_m (shr_record_of_loc m l) = m)
    by (destruct l as [ | [ | | ]]; reflexivity).
  destruct m as [ | p | p]; try lia. cbn [Zdigits2].
  pose proof (digits2_pos_bounds p) as Hd.
  set (d := Z.pos (digits2_pos p)) in *.
  unfold fexp, SpecFloat.emin, prec, emax in *.
  match goal with
  | |- context [match ?k with _ => _ end] =>
      destruct k as [ | n | n] eqn:En
  end; cbn [fst snd]; rewrite ?Hr; try (split; lia).
  rewrite iter_shr_1_m by (rewrite Hr; lia). rewrite Hr.
  assert (Hn : Z.pos n = d - 53) by lia.
  split; [| lia].
  rewrite Hn.
  assert (2 ^ 52 <= Z.pos p / 2 ^ (d - 53)).
  { apply Z.div_le_lower_bound; [apply Z.pow_pos_nonneg; lia |].
    rewrite <- Z.pow_add_r by lia.
    replace (d - 53 + 52) with (d - 1) by lia. lia. }
  assert (0 < 2 ^ 52) by reflexivity.
  lia.
Qed.

Lemma round_nearest_even_pos mx lx :
  0 < mx -> 0 < round_nearest_even mx lx.
Proof.
  intros H. destruct lx as [ | [ | | ]]; cbn; try lia.
  destruct (Z.even mx); lia.
Qed.

Lemma binary_round_aux_not_zero s m e l s' :
  0 < m -> -1074 <= e ->
  binary_round_aux prec emax s m e l <> S754_zero s'.
Proof.
  intros Hm He. unfold binary_round_aux.
  pose proof (shr_fexp_pos m e l Hm He) as [H1 H2].
  destruct (shr_fexp prec emax m e l) as [mrs' e']. cbn [fst snd] in *.
  pose proof (shr_fexp_pos _ e' loc_Exact
                (round_nearest_even_pos _ (loc_of_shr_record mrs') H1) H2)
    as [H3 H4].
  destruct (shr_fexp prec emax (round_nearest_even (shr_m mrs')
              (loc_of_shr_record mrs')) e' loc_Exact) as [mrs'' e''].
  cbn [fst snd] in *.
  destruct (shr_m mrs'') as [ | p | p]; try lia.
  destruct (e'' <=? emax - prec); discriminate.
Qed.

Lemma binary_round_not_zero s m e s' :
  -1074 <= e -> binary_round prec emax s m e <> S754_zero s'.
Proof.
  intros He. unfold binary_round.
  destruct (shl_align m e (fexp prec emax (Z.pos (digits2_pos m) + e)))
    as [mz ez] eqn:E.
  apply binary_round_aux_not_zero; [lia |].
  apply (f_equal snd) in E. cbn [snd] in E. subst ez.
  assert (-1074 <= fexp prec emax (Z.pos (digits2_pos m) + e))
    by (unfold fexp, SpecFloat.emin, prec, emax; lia).
  unfold shl_align.
  destruct (fexp prec emax (Z.pos (digits2_pos m) + e) - e); cbn [snd]; lia.
Qed.

Lemma valid_emin s m e :
  valid_binary (S754_finite s m e) = true -> -1074 <= e.
Proof.
  cbn. unfold bounded, canonical_mantissa, fexp, SpecFloat.emin, prec, emax.
  intros H. apply andb_true_iff in H as [H _]. apply Z.eqb_eq in H. lia.
Qed.

Lemma SFadd_not_neg_zero x y :
  valid_binary x = true -> valid_binary y = true ->
  x <> S754_zero true -> SF64add x y <> S754_zero true.
Proof.
  intros Vx Vy Hx. unfold SF64add, SFadd.
  destruct x as [sx | sx | | sx mx ex], y as [sy | sy | | sy my ey];
    try discriminate; try congruence.
  - destruct sx, sy; congruence.
  - destruct sx, sy; discriminate.
  - apply valid_emin in Vx, Vy. unfold binary_normalize.
    destruct (_ + _)%Z; try discriminate;
      apply binary_round_not_zero; lia.
Qed.

Local Close Scope Z_scope.

(** *** Addition and multiplication up to the sign of zero *)

Lemma add_not_neg_zero x y : ~ neg_zero x -> ~ neg_zero (x + y).
Proof.
  unfold neg_zero. rewrite add_spec.
  apply SFadd_not_neg_zero; apply Prim2SF_valid.
Qed.

Lemma same_value_zero_SF x y :
  same_value_zero x y <->
  Prim2SF x = Prim2SF y \/
  (exists s t, Prim2SF x = S754_zero s /\ Prim2SF y = S754_zero t).
Proof.
  unfold same_value_zero. rewrite !is_zero_spec. split.
  - intros [-> | [[s Hs] [t Ht]]]; eauto.
  - intros [H | (s & t & Hs & Ht)]; [left; now apply Prim2SF_inj | eauto].
Qed.

Lemma mul_same_value_zero a b c d :
  same_value_zero a b -> same_value_zero c d ->
  same_value_zero (a * c) (b * d).
Proof.
  rewrite !same_value_zero_SF, !mul_spec. unfold SF64mul.
  intros [-> | (s & t & -> & ->)] [-> | (s' & t' & -> & ->)].
  - now left.
  - destruct (Prim2SF b); cbn; eauto.
  - destruct (Prim2SF d); cbn; eauto.
  - cbn; eauto.
Qed.

Lemma add_same_value_zero x y y' :
  ~ neg_zero x -> same_value_zero y y' -> x + y = x + y'.
Proof.
  unfold neg_zero. intros Hx H. apply same_value_zero_SF in H.
  apply Prim2SF_inj. rewrite !add_spec. unfold SF64add.
  destruct H as [-> | (s & t & -> & ->)]; [reflexivity |].
  destruct (Prim2SF x) as [[ | ] | | | ]; try congruence;
    destruct s, t; reflexivity.
Qed.

Lemma fold_add_same_value_zero terms terms' :
  Forall2 same_value_zero terms terms' ->
  forall acc, ~ neg_zero acc ->
  fold_left PrimFloat.add terms acc = fold_left PrimFloat.add terms' acc.
Proof.
  induction 1 as [ | y y' terms terms' Hy _ IH]; intros acc Hacc; cbn.
  - reflexivity.
  - rewrite (add_same_value_zero acc y y') by assumption.
    apply IH. now apply add_not_neg_zero.
Qed.

Lemma sum_left_same_value_zero terms terms' :
  Forall2 same_value_zero terms terms' -> sum_left terms = sum_left terms'.
Proof.
  intros H. apply fold_add_same_value_zero; [assumption |].
  unfold neg_zero. change (Prim2SF 0) with (S754_zero false). discriminate.
Qed.

(** *** Math.min and Math.max pick the least and the greatest argument *)

Lemma classify_NZero x : classify x = NZero -> Prim2SF x = S754_zero true.
Proof.
  rewrite classify_spec. unfold SF64classify, SFclassify.
  destruct (Prim2SF x) as [[ | ] | [ | ] | | [ | ] m e]; try discriminate;
    try reflexivity; destruct (_ =? _)%Z; discriminate.
Qed.

Lemma classify_PZero x : classify x = PZero -> Prim2SF x = S754_zero false.
Proof.
  rewrite classify_spec. unfold SF64classify, SFclassify.
  destruct (Prim2SF x) as [[ | ] | [ | ] | | [ | ] m e]; try discriminate;
    try reflexivity; destruct (_ =? _)%Z; discriminate.
Qed.

Lemma Math_min_from_spec args : forall lowest,
  is_nan lowest = false ->
  (forall x, In x args -> is_nan x = false) ->
  let m := Math_min_from lowest args in
  (m = lowest \/ In m args) /\ (m <=? lowest) = true /\
  (forall x, In x args -> (m <=? x) = true).
Proof.
  induction args as [ | x rest IH]; intros lowest Hl Hargs; cbn zeta.
  - cbn. split; [now left | split; [now apply leb_refl | intros x []]].
  - assert (Hx : is_nan x = false) by (apply Hargs; now left).
    cbn [Math_min_from]. rewrite Hx.
    set (l1 := match classify x, classify lowest with
               | NZero, PZero => x
               | _, _ => lowest
               end).
    set (l2 := if x <? l1 then x else l1).
    assert (H1 : (l1 = lowest \/ l1 = x) /\ is_nan l1 = false
                 /\ (l1 <=? lowest) = true).
    { subst l1. destruct (classify x) eqn:Cx;
        try solve [repeat split; auto using leb_refl].
      destruct (classify lowest) eqn:Cl;
        try solve [repeat split; auto using leb_refl].
      apply classify_NZero in Cx. apply classify_PZero in Cl.
      repeat split; auto. rewrite leb_spec, ?Cx, ?Cl. reflexivity. }
    destruct H1 as (H1 & N1 & L1).
    assert (H2 : (l2 = l1 \/ l2 = x) /\ is_nan l2 = false
                 /\ (l2 <=? l1) = true /\ (l2 <=? x) = true).
    { subst l2. destruct (x <? l1) eqn:C.
      - repeat split; auto using leb_refl, ltb_leb.
      - repeat split; auto using leb_refl, leb_total. }
    destruct H2 as (H2 & N2 & L2 & L2x).
    destruct (IH l2 N2 (fun y Hy => Hargs y (or_intror Hy)))
      as (Hin & Hle & Hall).
    repeat split.
    + destruct Hin as [Hin | Hin]; [| right; now right].
      rewrite Hin. destruct H2 as [-> | ->]; [| right; now left].
      destruct H1 as [-> | ->]; [now left | right; now left].
    + eauto using leb_trans.
    + intros y [<- | Hy]; eauto using leb_trans.
Qed.

Lemma Math_max_from_spec args : forall highest,
  is_nan highest = false ->
  (forall x, In x args -> is_nan x = false) ->
  let m := Math_max_from highest args in
  (m = highest \/ In m args) /\ (highest <=? m) = true /\
  (forall x, In x args -> (x <=? m) = true).
Proof.
  induction args as [ | x rest IH]; intros highest Hl Hargs; cbn zeta.
  - cbn. split; [now left | split; [now apply leb_refl | intros x []]].
  - assert (Hx : is_nan x = false) by (apply Hargs; now left).
    cbn [Math_max_from]. rewrite Hx.
    set (h1 := match classify x, classify highest with
               | PZero, NZero => x
               | _, _ => highest
               end).
    set (h2 := if h1 <? x then x else h1).
    assert (H1 : (h1 = highest \/ h1 = x) /\ is_nan h1 = false
                 /\ (highest <=? h1) = true).
    { subst h1. destruct (classify x) eqn:Cx;
        try solve [repeat split; auto using leb_refl].
      destruct (classify highest) eqn:Cl;
        try solve [repeat split; auto using leb_refl].
      apply classify_PZero in Cx. apply classify_NZero in Cl.
      repeat split; auto. rewrite leb_spec, ?Cx, ?Cl. reflexivity. }
    destruct H1 as (H1 & N1 & L1).
    assert (H2 : (h2 = h1 \/ h2 = x) /\ is_nan h2 = false
                 /\ (h1 <=? h2) = true /\ (x <=? h2) = true).
    { subst h2. destruct (h1 <? x) eqn:C.
      - repeat split; auto using leb_refl, ltb_leb.
      - repeat split; auto using leb_refl, leb_total. }
    destruct H2 as (H2 & N2 & L2 & L2x).
    destruct (IH h2 N2 (fun y Hy => Hargs y (or_intror Hy)))
      as (Hin & Hle & Hall).
    repeat split.
    + destruct Hin as [Hin | Hin]; [| right; now right].
      rewrite Hin. destruct H2 as [-> | ->]; [| right; now left].
      destruct H1 as [-> | ->]; [now left | right; now left].
    + eauto using leb_trans.
    + intros y [<- | Hy]; eauto using leb_trans.
Qed.

(** Only [+Infinity] is at or above [+Infinity], only [-Infinity] at or
    below [-Infinity]. *)
Lemma infinity_leb x : (infinity <=? x) = true -> x = infinity.
Proof.
  rewrite leb_spec. intros H. apply Prim2SF_inj.
  change (Prim2SF infinity) with (S754_infinity false) in *.
  destruct (Prim2SF x) as [s | [ | ] | | [ | ] m e]; cbn in H;
    try discriminate; reflexivity.
Qed.

Lemma leb_neg_infinity x : (x <=? neg_infinity) = true -> x = neg_infinity.
Proof.
  rewrite leb_spec. intros H. apply Prim2SF_inj.
  change (Prim2SF neg_infinity) with (S754_infinity true) in *.
  destruct (Prim2SF x) as [s | [ | ] | | [ | ] m e]; cbn in H;
    try discriminate; reflexivity.
Qed.

Lemma Math_min_spec args :
  args <> [] -> (forall x, In x args -> is_nan x = false) ->
  In (Math_min args) args /\
  (forall x, In x args -> (Math_min args <=? x) = true).
Proof.
  intros Hne Hargs. unfold Math_min.
  destruct (Math_min_from_spec args infinity eq_refl Hargs)
    as (Hin & _ & Hall).
  split; [| assumption].
  destruct Hin as [Hin | Hin]; [| assumption].
  destruct args as [ | x rest]; [congruence |].
  specialize (Hall x (or_introl eq_refl)). rewrite Hin in *.
  apply infinity_leb in Hall. subst x. now left.
Qed.

Lemma Math_max_spec args :
  args <> [] -> (forall x, In x args -> is_nan x = false) ->
  In (Math_max args) args /\
  (forall x, In x args -> (x <=? Math_max args) = true).
Proof.
  intros Hne Hargs. unfold Math_max.
  destruct (Math_max_from_spec args neg_infinity eq_refl Hargs)
    as (Hin & _ & Hall).
  split; [| assumption].
  destruct Hin as [Hin | Hin]; [| assumption].
  destruct args as [ | x rest]; [congruence |].
  specialize (Hall x (or_introl eq_refl)). rewrite Hin in *.
  apply leb_neg_infinity in Hall. subst x. now left.
Qed.

End FloatFacts.

(** ** The second reduce, on carts of item objects *)

Import FloatFacts.

Lemma reduce_gstStep_objects items : forall init,
  reduce gstStep (map Some items) init = Normal (summarize items init).
Proof.
  induction items as [ | it items IH]; intros init.
  - destruct init; reflexivity.
  - cbn [map reduce]. unfold gstStep at 1. cbn [calculateItemGST JS.bind].
    rewrite IH. reflexivity.
Qed.

Lemma objects_Some entries items :
  objects entries = Some items <-> entries = map Some items.
Proof.
  revert items. induction entries as [ | [it | ] entries IH]; intros items;
    cbn.
  - split; [intros [= <-]; reflexivity | destruct items; [auto | discriminate]].
  - destruct (objects entries) as [its | ] eqn:E; cbn.
    + split.
      * intros [= <-]. cbn. f_equal. now apply IH.
      * destruct items as [ | it' items]; [discriminate |].
        intros [= -> H]. apply IH in H as [= ->]. reflexivity.
    + split; [discriminate |].
      destruct items as [ | it' items]; [discriminate |].
      intros [= -> H]. apply IH in H. discriminate.
  - split; [discriminate | destruct items; discriminate].
Qed.

Lemma reduce_gstStep_null entries : forall init,
  objects entries = None -> reduce gstStep entries init = Throw TypeError.
Proof.
  induction entries as [ | [it | ] entries IH]; intros init; cbn [objects].
  - discriminate.
  - destruct (objects entries) eqn:E; [discriminate |]. intros _.
    cbn [reduce]. unfold gstStep at 1. cbn [calculateItemGST JS.bind].
    now apply IH.
  - reflexivity.
Qed.

(** The summary of an order: the folds of [summarize] when every element
    of the cart is an item object, a TypeError otherwise. *)
Lemma gstSummary_spec order :
  gstSummary order =
  match objects (cart_or_empty order) with
  | Some items => Normal (summarize items emptySummary)
  | None => Throw TypeError
  end.
Proof.
  unfold gstSummary. destruct (objects (cart_or_empty order)) eqn:E.
  - apply objects_Some in E. rewrite E. apply reduce_gstStep_objects.
  - now apply reduce_gstStep_null.
Qed.

Lemma objects_Forall entries :
  (forall entry, In entry entries -> entry <> None) ->
  exists items, objects entries = Some items.
Proof.
  induction entries as [ | [it | ] entries IH]; intros H; cbn.
  - eauto.
  - destruct IH as [items ->]; [intros e He; apply H; now right |].
    cbn. eauto.
  - exfalso. apply (H None); [now left | reflexivity].
Qed.

Lemma fold_left_add_map {A : Type} (f : A -> float) (l : list A) : forall acc,
  fold_left (fun sum x => sum + f x) l acc
  = fold_left PrimFloat.add (map f l) acc.
Proof.
  induction l as [ | x l IH]; intros acc; cbn; [reflexivity | apply IH].
Qed.

(** ** The total amount *)

Lemma or_zero_missing_as_zero v :
  same_value_zero (ToNumber (JS.or v (number 0))) (missing_as_zero v).
Proof.
  unfold JS.or, missing_as_zero.
  destruct v as [ | | f]; cbn [ToBoolean present ToNumber];
    try apply same_value_zero_refl.
  destruct (is_nan f) eqn:N, (is_zero f) eqn:Z; cbn [negb orb ToNumber];
    try apply same_value_zero_refl.
  right. split; [reflexivity | assumption].
Qed.

Lemma lineTotal_same_value_zero entry :
  same_value_zero (lineTotal entry)
    (missing_as_zero (opt_quantity entry) * missing_as_zero (opt_price entry)).
Proof.
  unfold lineTotal, JS.mul.
  apply mul_same_value_zero; apply or_zero_missing_as_zero.
Qed.

Lemma Forall2_map_pointwise {A : Type} (R : float -> float -> Prop)
  (f g : A -> float) (l : list A) :
  (forall x, In x l -> R (f x) (g x)) -> Forall2 R (map f l) (map g l).
Proof.
  induction l as [ | x l IH]; intros H; cbn; constructor.
  - apply H. now left.
  - apply IH. intros y Hy. apply H. now right.
Qed.

(** C6: [totalAmount] is the sum, taken in cart order, of quantity times
    price over the items, a missing quantity or price counting as 0; it is
    0 for an empty cart and for an absent one.  The scenario cart totals
    200, the three items of prices 10, 20, 30 total 60, and the mixed cart,
    whose priceless item and [null] element count as 0, totals 22.5. *)
Theorem totalAmount_is_sum_of_line_totals :
  (forall order : Order,
      totalAmount order = spec_computeTotalAmount (cart order)) /\
  (forall id inv d,
      totalAmount {| order_id := id; invoice_number := inv; cart := Some [];
                     discount_percentage := d |} = 0) /\
  (forall id inv d,
      totalAmount {| order_id := id; invoice_number := inv; cart := None;
                     discount_percentage := d |} = 0) /\
  totalAmount (order_of scenario_cart (number 10)) = 200 /\
  totalAmount (order_of dedup_cart (number 0)) = 60 /\
  totalAmount (order_of mixed_cart (number 0)) = 22.5.
Proof.
  split; [| repeat split; reflexivity].
  intros order. unfold totalAmount, spec_computeTotalAmount, cart_or_empty.
  destruct (cart order) as [items | ]; [| reflexivity].
  rewrite fold_left_add_map. apply sum_left_same_value_zero.
  apply Forall2_map_pointwise. intros [it | ] _.
  - exact (lineTotal_same_value_zero (Some it)).
  - left. reflexivity.
Qed.

(** ** The two subtotals *)

Lemma present_ToNumber v : present v = true -> missing_as_zero v = ToNumber v.
Proof. unfold missing_as_zero. now intros ->. Qed.

(** C10: when every element of the cart is an item whose quantity and
    price are present, the summary is computed and its [baseAmount] is the
    [totalAmount] of the order. *)
Theorem baseAmount_agrees_with_totalAmount (order : Order) :
  (forall entry, In entry (cart_or_empty order) ->
     exists it, entry = Some it /\
       present (quantity it) = true /\ present (price it) = true) ->
  exists summary,
    gstSummary order = Normal summary /\
    baseAmount summary = totalAmount order.
Proof.
  intros H.
  destruct (objects_Forall (cart_or_empty order)) as [items E].
  { intros entry He. destruct (H entry He) as (it & -> & _). discriminate. }
  rewrite gstSummary_spec, E. eexists. split; [reflexivity |].
  apply objects_Some in E. unfold totalAmount. rewrite E in *.
  cbn [summarize baseAmount emptySummary].
  rewrite (fold_left_add_map (fun it => JS.mul (quantity it) (price it))).
  rewrite (fold_left_add_map lineTotal), map_map.
  apply sum_left_same_value_zero, Forall2_map_pointwise.
  intros it Hit. apply same_value_zero_sym.
  destruct (H (Some it)) as (it' & [= <-] & Hq & Hp);
    [now apply in_map |].
  replace (JS.mul (quantity it) (price it))
    with (missing_as_zero (opt_quantity (Some it))
          * missing_as_zero (opt_price (Some it)))
    by (cbn; now rewrite !present_ToNumber).
  apply lineTotal_same_value_zero.
Qed.

Lemma baseAmount_agrees_with_totalAmount_witness :
  exists summary,
    gstSummary (order_of scenario_cart (number 10)) = Normal summary /\
    baseAmount summary = totalAmount (order_of scenario_cart (number 10)).
Proof.
  apply (baseAmount_agrees_with_totalAmount
           (order_of scenario_cart (number 10))).
  intros entry [<- | []]. eexists. split; [reflexivity |].
  split; reflexivity.
Defined.

(** A NaN quantity is no number and does not count as present: the total
    amount takes it as 0 while the base amount of the summary becomes NaN. *)
Remark nan_quantity_subtotals :
  totalAmount (order_of nan_cart (number 0)) = 0 /\
  exists summary,
    gstSummary (order_of nan_cart (number 0)) = Normal summary /\
    baseAmount summary = nan.
Proof. split; [reflexivity | eexists; split; reflexivity]. Qed.

(** ** The absent order *)

(** C9: an absent order makes the component return the null marker
    without throwing, and a present order never produces that marker: the
    component then renders totals or throws. *)
Theorem absent_order_renders_nothing :
  OrderHistoryReceipt None = Normal None /\
  forall order : Order, OrderHistoryReceipt (Some order) <> Normal None.
Proof.
  split; [reflexivity |].
  intros order. unfold OrderHistoryReceipt.
  destruct (gstSummary order) as [summary | e]; cbn; discriminate.
Qed.


(** ** The rate sets *)

Lemma SameValueZero_refl x : SameValueZero x x = true.
Proof. apply SameValueZero_spec, same_value_zero_refl. Qed.

Lemma includes_push acc x y :
  includes (push acc x) y = includes acc y || SameValueZero x y.
Proof.
  unfold includes, push. rewrite existsb_app. cbn. now rewrite orb_false_r.
Qed.

Lemma includes_same_value acc x y :
  includes acc x = true -> SameValueZero x y = true -> includes acc y = true.
Proof.
  unfold includes. rewrite !existsb_exists.
  intros (z & Hz & Hzx) Hxy. exists z. split; [assumption |].
  apply SameValueZero_spec in Hzx, Hxy. apply SameValueZero_spec.
  eauto using same_value_zero_trans.
Qed.

Lemma filter_and {A : Type} (p q : A -> bool) (l : list A) :
  filter (fun x => p x && q x) l = filter p (filter q l).
Proof.
  induction l as [ | x l IH]; cbn; [reflexivity |].
  destruct (q x); cbn; rewrite ?andb_true_r, ?andb_false_r;
    [destruct (p x) |]; now rewrite IH.
Qed.

Lemma filter_absorb {A : Type} (p q : A -> bool) (l : list A) :
  (forall x, p x = true -> q x = true) ->
  filter p (filter q l) = filter p l.
Proof.
  intros H. rewrite <- filter_and. apply filter_ext. intros x.
  destruct (p x) eqn:P; [now rewrite (H x P) | reflexivity].
Qed.

(** Tracking the rates of a sequence one by one builds the first-seen
    sequence of its strictly positive rates. *)
Lemma fold_track_rate rates : forall acc,
  fold_left track_rate rates acc
  = acc ++ filter (fun r => negb (includes acc r))
             (first_seen (positive_rates rates)).
Proof.
  induction rates as [ | r rates IH]; intros acc.
  - cbn. now rewrite app_nil_r.
  - cbn [fold_left]. unfold positive_rates, track_rate at 2.
    cbn [filter]. fold (positive_rates rates).
    destruct (0 <? r) eqn:P; cbn [andb]; [| apply IH].
    cbn [first_seen filter]. destruct (includes acc r) eqn:I; cbn [negb].
    + rewrite IH. f_equal. symmetry. apply filter_absorb.
      intros y Hy. apply negb_true_iff. apply negb_true_iff in Hy.
      destruct (SameValueZero r y) eqn:E; [| reflexivity].
      now rewrite (includes_same_value acc r y I E) in Hy.
    + rewrite IH. unfold push at 1. rewrite <- app_assoc. cbn [app].
      do 2 f_equal. rewrite <- filter_and. apply filter_ext. intros y.
      rewrite includes_push. apply negb_orb.
Qed.

Lemma fold_left_map_arg {A B C : Type} (f : A -> C -> A) (g : B -> C)
  (l : list B) : forall acc,
  fold_left (fun a x => f a (g x)) l acc = fold_left f (map g l) acc.
Proof.
  induction l as [ | x l IH]; intros acc; cbn; [reflexivity | apply IH].
Qed.

Lemma tracked_rates_first_seen {A : Type} (rate : A -> float) (items : list A) :
  fold_left (fun rates it => track_rate rates (rate it)) items []
  = first_seen (positive_rates (map rate items)).
Proof.
  rewrite (fold_left_map_arg track_rate rate), fold_track_rate. cbn [app].
  rewrite filter_ext with (g := fun _ => true) by reflexivity.
  clear. induction (first_seen _) as [ | x l IH]; cbn; congruence.
Qed.

Lemma first_seen_In r rates : In r (first_seen rates) -> In r rates.
Proof.
  induction rates as [ | x rates IH]; cbn; [auto |].
  intros [-> | H]; [now left |]. apply filter_In in H as [H _]. auto.
Qed.

Lemma first_seen_NoDup rates : NoDup (first_seen rates).
Proof.
  induction rates as [ | x rates IH]; cbn; constructor.
  - intros H. apply filter_In in H as [_ H].
    now rewrite SameValueZero_refl in H.
  - now apply NoDup_filter.
Qed.

Lemma rate_or_zero_positive v :
  (0 <? rate_or_zero v) = true -> v = number (rate_or_zero v).
Proof.
  unfold rate_or_zero, JS.or.
  destruct (ToBoolean v) eqn:T; [| discriminate].
  destruct v; [discriminate | discriminate | reflexivity].
Qed.

Lemma positive_rates_In {A : Type} (rate : A -> float) (items : list A) r :
  In r (first_seen (positive_rates (map rate items))) ->
  (0 <? r) = true /\ exists it, In it items /\ rate it = r.
Proof.
  intros H. apply first_seen_In, filter_In in H as [H P].
  split; [assumption |]. apply in_map_iff in H as (it & <- & Hit). eauto.
Qed.

(** C4: when the summary is computed, each rate set is the sequence of the
    distinct strictly positive rates of the items in the order each is first
    met: it has no duplicates and every member is a strictly positive rate
    carried by some item.  Items with component-A rates 5, 5 and 12 give the
    two-element set 5, 12. *)
Theorem rate_sets_invariant :
  (forall (order : Order) (summary : GstSummary),
      gstSummary order = Normal summary ->
      exists items,
        cart_or_empty order = map Some items /\
        sgstRates summary
          = first_seen
              (positive_rates (map (fun it => rate_or_zero (sgst it)) items)) /\
        cgstRates summary
          = first_seen
              (positive_rates (map (fun it => rate_or_zero (cgst it)) items)) /\
        NoDup (sgstRates summary) /\ NoDup (cgstRates summary) /\
        (forall r, In r (sgstRates summary) ->
           (0 <? r) = true /\ exists it, In it items /\ sgst it = number r) /\
        (forall r, In r (cgstRates summary) ->
           (0 <? r) = true /\ exists it, In it items /\ cgst it = number r)) /\
  (exists summary,
      gstSummary (order_of dedup_cart (number 0)) = Normal summary /\
      sgstRates summary = [5; 12] /\ List.length (sgstRates summary) = 2%nat).
Proof.
  split.
  - intros order summary H. rewrite gstSummary_spec in H.
    destruct (objects (cart_or_empty order)) as [items | ] eqn:E;
      [| discriminate].
    injection H as <-. apply objects_Some in E. exists items.
    cbn [summarize sgstRates cgstRates emptySummary].
    rewrite !tracked_rates_first_seen.
    repeat split; auto using first_seen_NoDup.
    + now apply positive_rates_In in H as [P _].
    + apply positive_rates_In in H as (P & it & Hit & <-).
      exists it. split; [assumption |]. now apply rate_or_zero_positive.
    + now apply positive_rates_In in H as [P _].
    + apply positive_rates_In in H as (P & it & Hit & <-).
      exists it. split; [assumption |]. now apply rate_or_zero_positive.
  - eexists. repeat split.
Qed.

Lemma rate_sets_invariant_witness :
  exists items,
    cart_or_empty (order_of dedup_cart (number 0)) = map Some items /\
    sgstRates (summarize dedup_items emptySummary)
      = first_seen
          (positive_rates (map (fun it => rate_or_zero (sgst it)) items)) /\
    NoDup (sgstRates (summarize dedup_items emptySummary)).
Proof.
  destruct (proj1 rate_sets_invariant (order_of dedup_cart (number 0))
              (summarize dedup_items emptySummary) eq_refl)
    as (items & Hc & Ha & _ & Hn & _).
  exists items. repeat split; assumption.
Defined.

(** ** The rate range shown on the receipt *)

(** C5: [formatGSTRates] gives "0" for no rate, the rate's own string for
    one rate, and for two or more the least and the greatest of them joined
    by a dash, the rates in between left out: no rate gives "0", the rate 7
    gives "7", the rates 5, 12, 18 give "5-18". *)
Theorem formatGSTRates_range :
  formatGSTRates [] = "0"%string /\
  (forall r, formatGSTRates [r] = Number_toString r) /\
  (forall r1 r2 rest,
      let rates := r1 :: r2 :: rest in
      formatGSTRates rates
      = (Number_toString (Math_min rates) ++ "-"
           ++ Number_toString (Math_max rates))%string) /\
  (forall rates,
      rates <> [] -> (forall r, In r rates -> is_nan r = false) ->
      In (Math_min rates) rates /\ In (Math_max rates) rates /\
      forall r, In r rates ->
        (Math_min rates <=? r) = true /\ (r <=? Math_max rates) = true) /\
  formatGSTRates [7] = "7"%string /\
  formatGSTRates [5; 12; 18] = "5-18"%string.
Proof.
  split; [reflexivity |]. split; [reflexivity |].
  split; [reflexivity |]. split; [| split; vm_compute; reflexivity].
  intros rates Hne Hnan.
  destruct (Math_min_spec rates Hne Hnan) as [Hmin Hle].
  destruct (Math_max_spec rates Hne Hnan) as [Hmax Hge].
  repeat split; auto.
Qed.

Lemma formatGSTRates_range_witness :
  In (Math_min [5; 12; 18]) [5; 12; 18] /\
  In (Math_max [5; 12; 18]) [5; 12; 18] /\
  forall r, In r [5; 12; 18] ->
    (Math_min [5; 12; 18] <=? r) = true /\
    (r <=? Math_max [5; 12; 18]) = true.
Proof.
  apply (proj1 (proj2 (proj2 (proj2 formatGSTRates_range)))).
  - discriminate.
  - intros r [<- | [<- | [<- | []]]]; reflexivity.
Defined.

(** ** The discount *)

Lemma ToBoolean_number f :
  ToBoolean (number f) = true <-> is_zero f = false /\ is_nan f = false.
Proof.
  cbn [ToBoolean]. rewrite negb_true_iff, orb_false_iff. reflexivity.
Qed.

(** C3: for a percentage that is a number other than 0 and NaN, the
    discount is the total times the hundredth of the percentage, whatever
    its sign or size; for a percentage that is absent, null or zero it is
    exactly 0.  A percentage of -10 or of 150 is neither rejected nor
    clamped. *)
Theorem discountAmount_short_circuit :
  (forall (order : Order) (f : float),
      discount_percentage order = number f ->
      is_zero f = false -> is_nan f = false ->
      discountAmount order = totalAmount order * (f / 100)) /\
  (forall order : Order,
      discount_percentage order = undefined \/
      discount_percentage order = null \/
      discount_percentage order = number 0 \/
      discount_percentage order = number (-0) ->
      discountAmount order = 0) /\
  discountAmount (order_of scenario_cart (number (-10))) = (-20) /\
  discountAmount (order_of scenario_cart (number 150)) = 300.
Proof.
  split; [| split; [| split; reflexivity]].
  - intros order f Hd Hz Hn. unfold discountAmount. rewrite Hd.
    rewrite (proj2 (ToBoolean_number f) (conj Hz Hn)). reflexivity.
  - intros order H. unfold discountAmount.
    destruct H as [-> | [-> | [-> | ->]]]; reflexivity.
Qed.

Lemma discountAmount_short_circuit_witness :
  discountAmount (order_of scenario_cart (number 10))
  = totalAmount (order_of scenario_cart (number 10)) * (10 / 100) /\
  discountAmount (order_of scenario_cart undefined) = 0.
Proof.
  split.
  - apply (proj1 discountAmount_short_circuit
             (order_of scenario_cart (number 10)) 10); reflexivity.
  - apply (proj1 (proj2 discountAmount_short_circuit)
             (order_of scenario_cart undefined)).
    left. reflexivity.
Defined.

(** ** The final amount *)

(** C7: the final amount is the total amount minus the discount amount,
    for every order, and the receipt shows exactly that as the amount
    payable. *)
Theorem finalAmount_identity :
  (forall order : Order,
      finalAmount order = totalAmount order - discountAmount order) /\
  (forall (order : Order) (totals : Totals),
      OrderHistoryReceipt (Some order) = Normal (Some totals) ->
      shownPayable totals = shownTotalAmount totals - discountAmount order).
Proof.
  split; [reflexivity |].
  intros order totals. unfold OrderHistoryReceipt.
  destruct (gstSummary order) as [summary | e]; cbn [JS.bind];
    [| discriminate].
  intros [= <-]. reflexivity.
Qed.

Lemma finalAmount_identity_witness :
  180 = 200 - discountAmount (order_of scenario_cart (number 10)).
Proof.
  apply (proj2 finalAmount_identity (order_of scenario_cart (number 10))
           {| shownTotalAmount := 200; shownDiscount := Some 20;
              shownTaxableValue := 144; shownCgstRates := "9";
              shownCgstAmount := 18; shownSgstRates := "9";
              shownSgstAmount := 18; shownTotalTax := 36;
              shownPayable := 180 |}).
  vm_compute. reflexivity.
Defined.

(** ** Tax and discount *)

(** C1: the discount does not reduce tax.  Changing the discount
    percentage of an order changes neither its total amount nor its tax
    summary; on a cart of item objects each tax component is the sum over
    the items of price times quantity times the item's rate over 100; and
    the taxable value shown is the discounted total minus the two
    undiscounted tax amounts.  For the scenario cart at 10%, the discount is
    20, the amount payable 180, each tax component 18 and the taxable value
    144. *)
Theorem discount_does_not_reduce_tax :
  (forall (order : Order) (d : value),
      gstSummary (with_discount order d) = gstSummary order /\
      totalAmount (with_discount order d) = totalAmount order) /\
  (forall (order : Order) (items : list CartItem),
      cart_or_empty order = map Some items ->
      exists summary,
        gstSummary order = Normal summary /\
        sgstAmount summary
        = sum_left
            (map (fun it =>
                    (JS.mul (price it) (quantity it) * rate_or_zero (sgst it))
                    / 100) items) /\
        cgstAmount summary
        = sum_left
            (map (fun it =>
                    (JS.mul (price it) (quantity it) * rate_or_zero (cgst it))
                    / 100) items)) /\
  (forall (order : Order) (totals : Totals),
      OrderHistoryReceipt (Some order) = Normal (Some totals) ->
      shownTaxableValue totals
      = (totalAmount order - discountAmount order)
        - (shownCgstAmount totals + shownSgstAmount totals)) /\
  OrderHistoryReceipt (Some (order_of scenario_cart (number 10)))
  = Normal (Some
      {| shownTotalAmount := 200; shownDiscount := Some 20;
         shownTaxableValue := 144; shownCgstRates := "9";
         shownCgstAmount := 18; shownSgstRates := "9";
         shownSgstAmount := 18; shownTotalTax := 36;
         shownPayable := 180 |}).
Proof.
  split; [intros; split; reflexivity |].
  split; [| split; [| vm_compute; reflexivity]].
  - intros order items E. rewrite gstSummary_spec.
    rewrite (proj2 (objects_Some _ _) E). eexists. split; [reflexivity |].
    cbn [summarize sgstAmount cgstAmount emptySummary].
    split; apply fold_left_add_map.
  - intros order totals. unfold OrderHistoryReceipt.
    destruct (gstSummary order) as [summary | e]; cbn [JS.bind];
      [| discriminate].
    intros [= <-]. reflexivity.
Qed.

Lemma discount_does_not_reduce_tax_witness :
  exists summary,
    gstSummary (order_of scenario_cart (number 10)) = Normal summary /\
    sgstAmount summary = 18 /\ cgstAmount summary = 18.
Proof.
  destruct (proj1 (proj2 discount_does_not_reduce_tax)
              (order_of scenario_cart (number 10))
              [item (number 100) (number 2) (number 9) (number 9)] eq_refl)
    as (summary & Hs & Ha & Hb).
  exists summary. split; [assumption |]. rewrite Ha, Hb.
  split; vm_compute; reflexivity.
Defined.

(** ** Items that are not well formed *)

(** C2: an item without a price is not treated as costing 0 by the tax
    computation.  The total amount counts it as 0, but [calculateItemGST]
    multiplies the absent price as NaN, so both tax components and the base
    amount of the summary are NaN. *)
Theorem missing_price_poisons_tax_summary :
  totalAmount (order_of priceless_cart (number 0)) = 0 /\
  calculateItemGST (Some (item undefined (number 2) (number 9) (number 9)))
  = Normal {| item_sgst := nan; item_cgst := nan |} /\
  gstSummary (order_of priceless_cart (number 0))
  = Normal {| baseAmount := nan; sgstAmount := nan; cgstAmount := nan;
              sgstRates := [9]; cgstRates := [9] |}.
Proof. repeat split; vm_compute; reflexivity. Qed.

(** The tax computation of an item object: the formula on the numbers its
    fields convert to, an absent rate counting as 0. *)
Lemma calculateItemGST_formula it :
  calculateItemGST (Some it)
  = Normal
      {| item_sgst :=
           (ToNumber (price it) * ToNumber (quantity it)
            * rate_or_zero (sgst it)) / 100;
         item_cgst :=
           (ToNumber (price it) * ToNumber (quantity it)
            * rate_or_zero (cgst it)) / 100 |}.
Proof. reflexivity. Qed.

Lemma rate_or_zero_absent : rate_or_zero undefined = 0.
Proof. reflexivity. Qed.

(** C8: the calculator is not total.  A [null] element in the cart is
    counted as 0 by the total amount, which reads it with [item?.], but the
    tax summary reads [item.price] and the component throws a TypeError;
    and an item without a price makes the tax amounts and the taxable value
    NaN. *)
Theorem null_item_throws :
  totalAmount (order_of [None] (number 10)) = 0 /\
  OrderHistoryReceipt (Some (order_of [None] (number 10))) = Throw TypeError /\
  OrderHistoryReceipt (Some (order_of priceless_cart (number 0)))
  = Normal (Some
      {| shownTotalAmount := 0; shownDiscount := None;
         shownTaxableValue := nan; shownCgstRates := "9";
         shownCgstAmount := nan; shownSgstRates := "9";
         shownSgstAmount := nan; shownTotalTax := nan;
         shownPayable := 0 |}).
Proof. repeat split; vm_compute; reflexivity. Qed.

(** On a cart whose elements are all item objects the component returns
    the totals: it throws only for a [null] or [undefined] element. *)
Lemma receipt_of_item_objects (order : Order) :
  (forall entry, In entry (cart_or_empty order) -> entry <> None) <->
  exists totals, OrderHistoryReceipt (Some order) = Normal (Some totals).
Proof.
  unfold OrderHistoryReceipt. rewrite gstSummary_spec. split.
  - intros H. destruct (objects_Forall _ H) as [items ->].
    cbn [JS.bind]. eauto.
  - destruct (objects (cart_or_empty order)) as [items | ] eqn:E.
    + intros _ entry He ->. apply objects_Some in E. rewrite E in He.
      apply in_map_iff in He as (it & Hit & _). discriminate.
    + cbn [JS.bind]. intros [totals H]. discriminate.
Qed.

(** ** Finite numbers, zeros and signs *)

Module FiniteFacts.

Lemma is_finite_spec x :
  is_finite x = true <->
  (exists s, Prim2SF x = S754_zero s) \/
  (exists s m e, Prim2SF x = S754_finite s m e).
Proof.
  unfold is_finite, is_infinity, is_nan.
  rewrite !FloatAxioms.eqb_spec, abs_spec.
  change (Prim2SF infinity) with (S754_infinity false).
  destruct (Prim2SF x) as [s | [ | ] | | s m e] eqn:E; cbn.
  - split; eauto.
  - split; [discriminate |]. intros [[t Ht] | (t & m & e & Ht)]; discriminate.
  - split; [discriminate |]. intros [[t Ht] | (t & m & e & Ht)]; discriminate.
  - split; [discriminate |]. intros [[t Ht] | (t & m & e & Ht)]; discriminate.
  - rewrite Z.compare_refl, pos_compare_cont, Pos.compare_refl.
    destruct s; cbn; split; eauto.
Qed.

Lemma mul_zero_l x y :
  is_zero x = true -> is_finite y = true -> is_zero (x * y) = true.
Proof.
  rewrite !is_zero_spec, is_finite_spec, mul_spec.
  intros [s ->] [[t ->] | (t & m & e & ->)]; cbn; eauto.
Qed.

Lemma mul_zero_r x y :
  is_finite x = true -> is_zero y = true -> is_zero (x * y) = true.
Proof.
  rewrite !is_zero_spec, is_finite_spec, mul_spec.
  intros [[t ->] | (t & m & e & ->)] [s ->]; cbn; eauto.
Qed.

Lemma div_zero_100 x : is_zero x = true -> is_zero (x / 100) = true.
Proof.
  rewrite !is_zero_spec, div_spec. intros [s ->].
  change (Prim2SF 100) with (S754_finite false 7036874417766400 (-46)).
  cbn. eauto.
Qed.

Lemma is_zero_is_finite x : is_zero x = true -> is_finite x = true.
Proof. rewrite is_zero_spec, is_finite_spec. auto. Qed.

Lemma add_zero_r x z : ~ neg_zero x -> is_zero z = true -> x + z = x.
Proof.
  unfold neg_zero. rewrite is_zero_spec. intros Hx [s Hz].
  apply Prim2SF_inj. rewrite add_spec, Hz. unfold SF64add.
  destruct (Prim2SF x) as [[ | ] | | | ]; try congruence; destruct s;
    reflexivity.
Qed.

Lemma zero_sub_zero z : is_zero z = true -> 0 - z = 0.
Proof.
  rewrite is_zero_spec. intros [s Hz]. apply Prim2SF_inj.
  rewrite sub_spec, Hz. change (Prim2SF 0) with (S754_zero false).
  destruct s; reflexivity.
Qed.

Lemma zero_not_neg_zero : ~ neg_zero 0.
Proof.
  unfold neg_zero. change (Prim2SF 0) with (S754_zero false). discriminate.
Qed.

(** A strictly positive number is neither a zero nor NaN, and so is a
    strictly negative one, which is moreover not above zero. *)
Lemma positive_truthy f :
  (0 <? f) = true -> is_zero f = false /\ is_nan f = false.
Proof.
  rewrite ltb_spec. change (Prim2SF 0) with (S754_zero false). intros H.
  split.
  - destruct (is_zero f) eqn:Z; [| reflexivity].
    apply is_zero_spec in Z as [s Z]. rewrite Z in H. discriminate.
  - apply is_nan_false. intros E. rewrite E in H. discriminate.
Qed.

Lemma negative_truthy f :
  (f <? 0) = true ->
  is_zero f = false /\ is_nan f = false /\ (0 <? f) = false.
Proof.
  rewrite !ltb_spec. change (Prim2SF 0) with (S754_zero false). intros H.
  repeat split.
  - destruct (is_zero f) eqn:Z; [| reflexivity].
    apply is_zero_spec in Z as [s Z]. rewrite Z in H. discriminate.
  - apply is_nan_false. intros E. rewrite E in H. discriminate.
  - destruct (Prim2SF f) as [s | [ | ] | | [ | ] m e]; cbn in *;
      congruence.
Qed.

Lemma same_value_zero_positive x y :
  (0 <? y) = true -> same_value_zero x y -> x = y.
Proof.
  intros P [E | [_ Z]]; [assumption |].
  apply positive_truthy in P as [P _]. congruence.
Qed.

End FiniteFacts.

Import FiniteFacts.

(** ** When the component throws *)

(** X1: the component throws, and then a TypeError, exactly when the cart
    holds a [null] or [undefined] element; otherwise it returns the totals. *)
Theorem receipt_throws_iff_null_element (order : Order) :
  (OrderHistoryReceipt (Some order) = Throw TypeError <->
   In None (cart_or_empty order)) /\
  ((exists totals, OrderHistoryReceipt (Some order) = Normal (Some totals)) <->
   ~ In None (cart_or_empty order)).
Proof.
  assert (Hobj : objects (cart_or_empty order) = None <->
                 In None (cart_or_empty order)).
  { induction (cart_or_empty order) as [ | [it | ] entries IH]; cbn.
    - split; [discriminate | intros []].
    - destruct (objects entries); cbn.
      + split; [discriminate |]. intros [[=] | H]. now apply IH in H.
      + split; [intros _; right; now apply IH | reflexivity].
    - split; auto. }
  unfold OrderHistoryReceipt. rewrite gstSummary_spec.
  destruct (objects (cart_or_empty order)) as [items | ]; cbn [JS.bind].
  - split; split.
    + discriminate.
    + intros H. apply Hobj in H. discriminate.
    + intros _ H. apply Hobj in H. discriminate.
    + eauto.
  - split; split.
    + intros _. now apply Hobj.
    + reflexivity.
    + intros [totals H]. discriminate.
    + intros H. exfalso. apply H. now apply Hobj.
Qed.

(** ** More on the rate sets *)

Lemma first_seen_complete r rates :
  In r rates ->
  exists r', In r' (first_seen rates) /\ SameValueZero r' r = true.
Proof.
  induction rates as [ | x rates IH]; cbn; [intros [] |].
  intros [-> | H].
  - exists r. split; [now left | apply SameValueZero_refl].
  - destruct (IH H) as (r' & Hin & Hsv).
    destruct (SameValueZero x r') eqn:E.
    + exists x. split; [now left |].
      apply SameValueZero_spec in E, Hsv. apply SameValueZero_spec.
      eauto using same_value_zero_trans.
    + exists r'. split; [| assumption]. right.
      apply filter_In. split; [assumption | now rewrite E].
Qed.

Lemma positive_rate_tracked {A : Type} (rate : A -> float) (items : list A) it :
  In it items -> (0 <? rate it) = true ->
  In (rate it) (first_seen (positive_rates (map rate items))).
Proof.
  intros Hit P.
  destruct (first_seen_complete (rate it) (positive_rates (map rate items)))
    as (r' & Hin & Hsv).
  { apply filter_In. split; [now apply in_map | assumption]. }
  apply SameValueZero_spec in Hsv.
  now rewrite <- (same_value_zero_positive r' (rate it) P Hsv).
Qed.

Lemma rate_or_zero_number r :
  (0 <? r) = true -> rate_or_zero (number r) = r.
Proof.
  intros P. apply positive_truthy in P as [Z N].
  unfold rate_or_zero, JS.or. cbn [ToBoolean]. now rewrite Z, N.
Qed.

(** X2: every strictly positive rate an item of the cart carries is in the
    rate set of its component. *)
Theorem positive_rates_are_tracked (order : Order) (summary : GstSummary)
  (it : CartItem) (r : float) :
  gstSummary order = Normal summary ->
  In (Some it) (cart_or_empty order) ->
  (0 <? r) = true ->
  (sgst it = number r -> In r (sgstRates summary)) /\
  (cgst it = number r -> In r (cgstRates summary)).
Proof.
  intros H Hit P. rewrite gstSummary_spec in H.
  destruct (objects (cart_or_empty order)) as [items | ] eqn:E;
    [| discriminate].
  injection H as <-. apply objects_Some in E. rewrite E in Hit.
  apply in_map_iff in Hit as (it' & [= ->] & Hit).
  cbn [summarize sgstRates cgstRates emptySummary].
  rewrite !tracked_rates_first_seen.
  split; intros Hr.
  - rewrite <- (rate_or_zero_number r P), <- Hr.
    apply (positive_rate_tracked (fun it => rate_or_zero (sgst it)));
      [assumption |]. now rewrite Hr, rate_or_zero_number.
  - rewrite <- (rate_or_zero_number r P), <- Hr.
    apply (positive_rate_tracked (fun it => rate_or_zero (cgst it)));
      [assumption |]. now rewrite Hr, rate_or_zero_number.
Qed.

Lemma positive_rates_are_tracked_witness :
  In 12 (sgstRates (summarize dedup_items emptySummary)).
Proof.
  apply (proj1 (positive_rates_are_tracked
                  (order_of dedup_cart (number 0))
                  (summarize dedup_items emptySummary)
                  (item (number 30) (number 1) (number 12) (number 5)) 12
                  eq_refl
                  (or_intror (or_intror (or_introl eq_refl)))
                  eq_refl)).
  reflexivity.
Defined.

Lemma fold_track_rate_prefix {A : Type} (rate : A -> float) (a b : list A) :
  forall acc, exists more,
    fold_left (fun rates it => track_rate rates (rate it)) (a ++ b) acc
    = fold_left (fun rates it => track_rate rates (rate it)) a acc ++ more.
Proof.
  intros acc. rewrite fold_left_app.
  rewrite (fold_left_map_arg track_rate rate b), fold_track_rate. eauto.
Qed.

(** X3: items added at the end of a cart only add rates at the end of the
    rate sets: the sets of the shorter cart are prefixes of the sets of the
    longer one. *)
Theorem rate_sets_grow_at_the_end (shorter longer : Order)
  (extra : list CartEntry) (summary : GstSummary) :
  cart_or_empty longer = cart_or_empty shorter ++ extra ->
  gstSummary longer = Normal summary ->
  exists summary0 moreA moreB,
    gstSummary shorter = Normal summary0 /\
    sgstRates summary = sgstRates summary0 ++ moreA /\
    cgstRates summary = cgstRates summary0 ++ moreB.
Proof.
  intros Hc H. rewrite gstSummary_spec in *. rewrite Hc in H.
  destruct (objects (cart_or_empty shorter ++ extra)) as [items | ] eqn:E;
    [| discriminate].
  injection H as <-. apply objects_Some in E.
  symmetry in E. apply map_eq_app in E as (a & b & -> & Ha & Hb).
  rewrite (proj2 (objects_Some _ _) (eq_sym Ha)).
  cbn [summarize sgstRates cgstRates emptySummary].
  destruct (fold_track_rate_prefix (fun it => rate_or_zero (sgst it)) a b [])
    as [moreA HA].
  destruct (fold_track_rate_prefix (fun it => rate_or_zero (cgst it)) a b [])
    as [moreB HB].
  exists (summarize a emptySummary), moreA, moreB.
  repeat split; assumption.
Qed.

Lemma rate_sets_grow_at_the_end_witness :
  exists summary0 moreA moreB,
    gstSummary (order_of scenario_cart (number 0)) = Normal summary0 /\
    sgstRates (summarize
                 (item (number 100) (number 2) (number 9) (number 9)
                    :: dedup_items) emptySummary)
    = sgstRates summary0 ++ moreA /\
    cgstRates (summarize
                 (item (number 100) (number 2) (number 9) (number 9)
                    :: dedup_items) emptySummary)
    = cgstRates summary0 ++ moreB.
Proof.
  apply (rate_sets_grow_at_the_end
           (order_of scenario_cart (number 0))
           (order_of (scenario_cart ++ dedup_cart) (number 0))
           dedup_cart); reflexivity.
Defined.

Lemma rate_range_covers {A : Type} (rate : A -> float) (items : list A) :
  let rates := first_seen (positive_rates (map rate items)) in
  rates <> [] ->
  In (Math_min rates) rates /\ In (Math_max rates) rates /\
  forall it, In it items -> (0 <? rate it) = true ->
    (Math_min rates <=? rate it) = true /\
    (rate it <=? Math_max rates) = true.
Proof.
  intros rates Hne.
  assert (Hnan : forall r, In r rates -> is_nan r = false).
  { intros r Hr. apply positive_rates_In in Hr as [P _].
    now apply positive_truthy in P. }
  destruct (Math_min_spec rates Hne Hnan) as [Hmin Hle].
  destruct (Math_max_spec rates Hne Hnan) as [Hmax Hge].
  split; [assumption |]. split; [assumption |].
  intros it Hit P.
  pose proof (positive_rate_tracked rate items it Hit P) as Hin.
  split; [now apply Hle | now apply Hge].
Qed.

(** X4: when a component has at least one rate, the least and the greatest
    rate that [formatGSTRates] shows for it are rates carried by items of
    the cart, and every strictly positive rate of an item lies between
    them. *)
Theorem rate_range_covers_item_rates (order : Order) (summary : GstSummary) :
  gstSummary order = Normal summary ->
  (sgstRates summary <> [] ->
   (exists it, In (Some it) (cart_or_empty order) /\
               sgst it = number (Math_min (sgstRates summary))) /\
   (exists it, In (Some it) (cart_or_empty order) /\
               sgst it = number (Math_max (sgstRates summary))) /\
   forall it r, In (Some it) (cart_or_empty order) ->
     sgst it = number r -> (0 <? r) = true ->
     (Math_min (sgstRates summary) <=? r) = true /\
     (r <=? Math_max (sgstRates summary)) = true) /\
  (cgstRates summary <> [] ->
   (exists it, In (Some it) (cart_or_empty order) /\
               cgst it = number (Math_min (cgstRates summary))) /\
   (exists it, In (Some it) (cart_or_empty order) /\
               cgst it = number (Math_max (cgstRates summary))) /\
   forall it r, In (Some it) (cart_or_empty order) ->
     cgst it = number r -> (0 <? r) = true ->
     (Math_min (cgstRates summary) <=? r) = true /\
     (r <=? Math_max (cgstRates summary)) = true).
Proof.
  intros H. rewrite gstSummary_spec in H.
  destruct (objects (cart_or_empty order)) as [items | ] eqn:E;
    [| discriminate].
  injection H as <-. apply objects_Some in E. rewrite E.
  cbn [summarize sgstRates cgstRates emptySummary].
  rewrite !tracked_rates_first_seen.
  assert (Hmem : forall (rate : CartItem -> value) r,
             In r (first_seen
                     (positive_rates
                        (map (fun it => rate_or_zero (rate it)) items))) ->
             exists it, In (Some it) (map Some items) /\ rate it = number r).
  { intros rate r Hr. apply positive_rates_In in Hr as (P & it & Hit & <-).
    exists it. split; [now apply in_map | now apply rate_or_zero_positive]. }
  split; intros Hne.
  - destruct (rate_range_covers (fun it => rate_or_zero (sgst it)) items Hne)
      as (Hmin & Hmax & Hall).
    split; [now apply Hmem |]. split; [now apply Hmem |].
    intros it r Hit Hr P. apply in_map_iff in Hit as (it' & [= ->] & Hit).
    rewrite <- (rate_or_zero_number r P), <- Hr. apply Hall; [assumption |].
    now rewrite Hr, rate_or_zero_number.
  - destruct (rate_range_covers (fun it => rate_or_zero (cgst it)) items Hne)
      as (Hmin & Hmax & Hall).
    split; [now apply Hmem |]. split; [now apply Hmem |].
    intros it r Hit Hr P. apply in_map_iff in Hit as (it' & [= ->] & Hit).
    rewrite <- (rate_or_zero_number r P), <- Hr. apply Hall; [assumption |].
    now rewrite Hr, rate_or_zero_number.
Qed.

Lemma rate_range_covers_item_rates_witness :
  exists it, In (Some it) (cart_or_empty (order_of dedup_cart (number 0))) /\
             sgst it
             = number (Math_min (sgstRates (summarize dedup_items
                                              emptySummary))).
Proof.
  apply (proj1 (rate_range_covers_item_rates
                  (order_of dedup_cart (number 0))
                  (summarize dedup_items emptySummary) eq_refl)).
  discriminate.
Defined.

(** ** The discount row *)

(** X5: the discount row is shown exactly when the percentage is a number
    above 0, and the amount it shows is the total times the hundredth of
    that percentage. *)
Theorem discount_row_shown_iff_positive (order : Order) (totals : Totals) :
  OrderHistoryReceipt (Some order) = Normal (Some totals) ->
  (forall d, shownDiscount totals = Some d ->
     exists f, discount_percentage order = number f /\ (0 <? f) = true /\
               d = totalAmount order * (f / 100)) /\
  (forall f, discount_percentage order = number f -> (0 <? f) = true ->
     shownDiscount totals = Some (totalAmount order * (f / 100))).
Proof.
  unfold OrderHistoryReceipt.
  destruct (gstSummary order) as [summary | e]; cbn [JS.bind];
    [| discriminate].
  intros [= <-]. cbn [shownDiscount]. unfold JS.gt, discountAmount.
  cbn [ToNumber]. split.
  - intros d. destruct (discount_percentage order) as [ | | f];
      cbn [ToNumber]; try discriminate.
    destruct (0 <? f) eqn:P; [| discriminate].
    destruct (positive_truthy f P) as [Z N].
    cbn [ToBoolean]. rewrite Z, N. cbn. intros [= <-]. eauto.
  - intros f -> P. cbn [ToNumber ToBoolean]. rewrite P.
    destruct (positive_truthy f P) as [Z N]. now rewrite Z, N.
Qed.

Lemma discount_row_shown_iff_positive_witness :
  Some 20
  = Some (totalAmount (order_of scenario_cart (number 10)) * (10 / 100)).
Proof.
  apply (proj2 (discount_row_shown_iff_positive
                  (order_of scenario_cart (number 10))
                  {| shownTotalAmount := 200; shownDiscount := Some 20;
                     shownTaxableValue := 144; shownCgstRates := "9";
                     shownCgstAmount := 18; shownSgstRates := "9";
                     shownSgstAmount := 18; shownTotalTax := 36;
                     shownPayable := 180 |}
                  ltac:(vm_compute; reflexivity)) 10);
    reflexivity.
Defined.

(** X6: a percentage below 0 is applied without being shown: the receipt
    has no discount row, yet the amount payable is the total minus the
    total times the hundredth of the percentage. *)
Theorem negative_discount_applied_unseen (order : Order) (totals : Totals)
  (f : float) :
  OrderHistoryReceipt (Some order) = Normal (Some totals) ->
  discount_percentage order = number f ->
  (f <? 0) = true ->
  shownDiscount totals = None /\
  shownPayable totals
  = totalAmount order - totalAmount order * (f / 100).
Proof.
  unfold OrderHistoryReceipt.
  destruct (gstSummary order) as [summary | e]; cbn [JS.bind];
    [| discriminate].
  intros [= <-] Hd P. cbn [shownDiscount shownPayable].
  unfold JS.gt, finalAmount, discountAmount. rewrite Hd.
  cbn [ToNumber ToBoolean].
  destruct (negative_truthy f P) as (Z & N & Q). now rewrite Z, N, Q.
Qed.

Lemma negative_discount_applied_unseen_witness :
  None = (None : option float) /\ 220 = 200 - 200 * (-10 / 100).
Proof.
  apply (negative_discount_applied_unseen
           (order_of scenario_cart (number (-10)))
           {| shownTotalAmount := 200; shownDiscount := None;
              shownTaxableValue := 184; shownCgstRates := "9";
              shownCgstAmount := 18; shownSgstRates := "9";
              shownSgstAmount := 18; shownTotalTax := 36;
              shownPayable := 220 |} (-10));
    vm_compute; reflexivity.
Defined.

(** ** The item rows *)

Lemma or_zero_not_nan v : is_nan (ToNumber (JS.or v (number 0))) = false.
Proof.
  unfold JS.or. destruct (ToBoolean v) eqn:T; [| reflexivity].
  destruct v as [ | | f]; try discriminate.
  apply ToBoolean_number in T as [_ N]. exact N.
Qed.

Lemma gstSummary_throws_iff_null_element (order : Order) :
  (gstSummary order = Throw TypeError <-> In None (cart_or_empty order)).
Proof.
  rewrite gstSummary_spec.
  assert (Hobj : objects (cart_or_empty order) = None <->
                 In None (cart_or_empty order)).
  { induction (cart_or_empty order) as [ | [it | ] entries IH]; cbn.
    - split; [discriminate | intros []].
    - destruct (objects entries); cbn.
      + split; [discriminate |]. intros [[=] | H]. now apply IH in H.
      + split; [intros _; right; now apply IH | reflexivity].
    - split; auto. }
  destruct (objects (cart_or_empty order)); split.
  - discriminate.
  - intros H. apply Hobj in H. discriminate.
  - intros _. now apply Hobj.
  - reflexivity.
Qed.

(** X7: when the component renders, the items section has one row per
    item of the cart, in cart order: the row shows the item's name, or
    "N/A" for an empty one, its quantity, or 0 for a falsy one, and the
    product of quantity and price with falsy fields as 0.  The amounts of
    the rows, added in order, are the total amount; no row has an empty
    name and no quantity shown is NaN.  With a [null] element in the cart
    no row is rendered: the component throws. *)
Theorem item_rows_add_up_to_total :
  (forall (order : Order) (info : OrderInfo) (details : Details),
      receiptDetails order info = Normal details ->
      exists items,
        cart_or_empty order = map Some items /\
        Forall2
          (fun it row =>
             row_name row
             = (if (name it =? "")%string then "N/A"%string else name it) /\
             row_quantity row = ToNumber (JS.or (quantity it) (number 0)) /\
             row_amount row
             = JS.mul (JS.or (quantity it) (number 0))
                      (JS.or (price it) (number 0)))
          items (shownItemRows details) /\
        totalAmount order
        = sum_left (map row_amount (shownItemRows details)) /\
        forall row, In row (shownItemRows details) ->
          row_name row <> ""%string /\ is_nan (row_quantity row) = false) /\
  (forall (order : Order) (info : OrderInfo),
      In None (cart_or_empty order) ->
      receiptDetails order info = Throw TypeError) /\
  (exists details,
      receiptDetails (order_of unnamed_cart (number 0)) sample_info
      = Normal details /\
      shownItemRows details
      = [ {| row_name := "N/A"; row_description := "loose";
             row_quantity := 0; row_amount := 0 |};
          {| row_name := "item"; row_description := "";
             row_quantity := 2; row_amount := 200 |} ]).
Proof.
  split; [| split].
  - intros order info details. unfold receiptDetails.
    rewrite gstSummary_spec.
    destruct (objects (cart_or_empty order)) as [items | ] eqn:E;
      cbn [JS.bind]; [| discriminate].
    intros [= <-]. cbn [shownItemRows]. apply objects_Some in E.
    exists items. split; [assumption |]. split; [| split].
    + rewrite E. clear. induction items as [ | it items IH]; cbn [map];
        constructor; [repeat split | assumption].
    + unfold totalAmount. rewrite (fold_left_add_map lineTotal), map_map.
      reflexivity.
    + intros row Hrow. apply in_map_iff in Hrow as (entry & <- & _).
      cbn [itemRow row_name row_quantity]. split; [| apply or_zero_not_nan].
      destruct entry as [it | ]; [| discriminate].
      destruct (name it =? "")%string eqn:En; [discriminate |].
      now apply String.eqb_neq in En.
  - intros order info H. unfold receiptDetails.
    rewrite (proj2 (gstSummary_throws_iff_null_element order) H).
    reflexivity.
  - eexists. split; reflexivity.
Qed.

Lemma item_rows_add_up_to_total_witness :
  exists items,
    cart_or_empty (order_of unnamed_cart (number 0)) = map Some items /\
    totalAmount (order_of unnamed_cart (number 0)) = 200.
Proof.
  destruct (proj1 item_rows_add_up_to_total
              (order_of unnamed_cart (number 0)) sample_info
              {| shownInvoice := "INV-1";
                 shownDate := "2024-01-05 10:30";
                 shownCustomerRows :=
                   [("Customer:", "Asha"); ("Doctor:", "Rao")]%string;
                 shownItemRows := map itemRow unnamed_cart;
                 shownPaymentRows := [("Payment Method:", "cash")]%string |}
              eq_refl)
    as (items & Hc & _ & Ht & _).
  exists items. split; [assumption |]. rewrite Ht. reflexivity.
Defined.

(** ** Items of quantity zero *)

Lemma fold_add_not_neg_zero {A : Type} (f : A -> float) (l : list A) :
  forall acc, ~ neg_zero acc ->
  ~ neg_zero (fold_left (fun sum x => sum + f x) l acc).
Proof.
  induction l as [ | x l IH]; intros acc H; cbn; [assumption |].
  apply IH. now apply add_not_neg_zero.
Qed.

Lemma fold_add_skip_zero {A : Type} (f : A -> float) (a b : list A) (x : A) :
  is_zero (f x) = true ->
  fold_left (fun sum y => sum + f y) (a ++ x :: b) 0
  = fold_left (fun sum y => sum + f y) (a ++ b) 0.
Proof.
  intros Z. rewrite !fold_left_app. cbn [fold_left].
  rewrite add_zero_r; [reflexivity | | assumption].
  apply fold_add_not_neg_zero, zero_not_neg_zero.
Qed.

Lemma or_zero_finite v :
  is_finite (ToNumber v) = true ->
  is_finite (ToNumber (JS.or v (number 0))) = true.
Proof. unfold JS.or. now destruct (ToBoolean v). Qed.

(** X8: an item whose quantity is zero, with a finite price and finite
    rates, changes none of the amounts: the total amount, the base amount
    and both tax amounts are those of the cart without it. *)
Theorem zero_quantity_item_changes_no_amount
  (with_item without : Order) (before after : list CartItem)
  (it : CartItem) (q : float) :
  cart with_item = Some (map Some (before ++ it :: after)) ->
  cart without = Some (map Some (before ++ after)) ->
  quantity it = number q -> is_zero q = true ->
  is_finite (ToNumber (price it)) = true ->
  is_finite (rate_or_zero (sgst it)) = true ->
  is_finite (rate_or_zero (cgst it)) = true ->
  totalAmount with_item = totalAmount without /\
  exists summary summary',
    gstSummary with_item = Normal summary /\
    gstSummary without = Normal summary' /\
    baseAmount summary = baseAmount summary' /\
    sgstAmount summary = sgstAmount summary' /\
    cgstAmount summary = cgstAmount summary'.
Proof.
  intros Hc Hc' Hq Z Fp Fa Fb.
  assert (Zq : is_zero (ToNumber (quantity it)) = true) by now rewrite Hq.
  assert (Zb : is_zero (JS.mul (price it) (quantity it)) = true)
    by now apply mul_zero_r.
  split.
  - unfold totalAmount, cart_or_empty. rewrite Hc, Hc'.
    rewrite <- !(fold_left_map_arg (fun sum e => sum + lineTotal e) Some).
    apply (fold_add_skip_zero (fun x => lineTotal (Some x))).
    unfold lineTotal, JS.mul. cbn [opt_quantity opt_price].
    apply mul_zero_l; [| now apply or_zero_finite].
    unfold JS.or. rewrite Hq. cbn [ToBoolean]. rewrite Z. reflexivity.
  - rewrite !gstSummary_spec. unfold cart_or_empty. rewrite Hc, Hc'.
    rewrite !(proj2 (objects_Some _ _) eq_refl).
    do 2 eexists. split; [reflexivity |]. split; [reflexivity |].
    cbn [summarize baseAmount sgstAmount cgstAmount emptySummary].
    split; [| split].
    + apply (fold_add_skip_zero
               (fun x => JS.mul (quantity x) (price x))).
      now apply mul_zero_l.
    + apply (fold_add_skip_zero
               (fun x => (JS.mul (price x) (quantity x)
                          * rate_or_zero (sgst x)) / 100)).
      now apply div_zero_100, mul_zero_l.
    + apply (fold_add_skip_zero
               (fun x => (JS.mul (price x) (quantity x)
                          * rate_or_zero (cgst x)) / 100)).
      now apply div_zero_100, mul_zero_l.
Qed.

Lemma zero_quantity_item_changes_no_amount_witness :
  totalAmount
    (order_of (map Some (dedup_items
                 ++ item (number 100) (number 0) (number 9) (number 9)
                    :: dedup_items)) (number 0))
  = totalAmount (order_of (map Some (dedup_items ++ dedup_items)) (number 0)).
Proof.
  apply (zero_quantity_item_changes_no_amount
           (order_of (map Some (dedup_items
                        ++ item (number 100) (number 0) (number 9) (number 9)
                           :: dedup_items)) (number 0))
           (order_of (map Some (dedup_items ++ dedup_items)) (number 0))
           dedup_items dedup_items
           (item (number 100) (number 0) (number 9) (number 9)) 0);
    reflexivity.
Defined.

(** ** The empty cart *)

(** X9: for an empty or absent cart, and a discount percentage that is
    falsy or has a finite hundredth, every amount of the receipt is 0 and
    both rate labels are "0"; a discount row, when shown, shows a zero. *)
Theorem empty_cart_receipt (order : Order) :
  cart_or_empty order = [] ->
  (ToBoolean (discount_percentage order) = true ->
   is_finite (ToNumber (discount_percentage order) / 100) = true) ->
  exists totals,
    OrderHistoryReceipt (Some order) = Normal (Some totals) /\
    shownTotalAmount totals = 0 /\ shownTaxableValue totals = 0 /\
    shownCgstAmount totals = 0 /\ shownSgstAmount totals = 0 /\
    shownTotalTax totals = 0 /\ shownPayable totals = 0 /\
    shownCgstRates totals = "0"%string /\
    shownSgstRates totals = "0"%string /\
    forall d, shownDiscount totals = Some d -> is_zero d = true.
Proof.
  intros Hc Hd.
  assert (Ht : totalAmount order = 0) by (unfold totalAmount; now rewrite Hc).
  assert (Zd : is_zero (discountAmount order) = true).
  { unfold discountAmount. rewrite Ht.
    destruct (ToBoolean (discount_percentage order)); [| reflexivity].
    apply mul_zero_l; [reflexivity | now apply Hd]. }
  assert (Hf : finalAmount order = 0).
  { unfold finalAmount. rewrite Ht. now apply zero_sub_zero. }
  unfold OrderHistoryReceipt, gstSummary. rewrite Hc. cbn [reduce JS.bind].
  eexists. split; [reflexivity |].
  cbn [shownTotalAmount shownTaxableValue shownCgstAmount shownSgstAmount
       shownTotalTax shownPayable shownCgstRates shownSgstRates shownDiscount
       emptySummary cgstAmount sgstAmount cgstRates sgstRates].
  rewrite Hf. repeat split; try assumption.
  intros d. destruct (JS.gt _ _); [| discriminate]. now intros [= <-].
Qed.

Lemma empty_cart_receipt_witness :
  exists totals,
    OrderHistoryReceipt (Some (order_of [] (number 10)))
    = Normal (Some totals) /\
    shownPayable totals = 0.
Proof.
  destruct (empty_cart_receipt (order_of [] (number 10)) eq_refl
              (fun _ => eq_refl))
    as (totals & H & _ & _ & _ & _ & _ & Hp & _).
  exists totals. split; assumption.
Defined.

(** ** The order and customer details *)

Lemma labelled_row_text label field row :
  In row (labelled_row label field) ->
  fst row = label /\ field = Some (snd row) /\ snd row <> ""%string.
Proof.
  unfold labelled_row. destruct field as [s | ]; [| intros []].
  destruct (s =? "")%string eqn:E; [intros [] |].
  intros [<- | []]. cbn. repeat split. now apply String.eqb_neq in E.
Qed.

Lemma labelled_row_In label field l s :
  In (l, s) (labelled_row label field) <->
  l = label /\ field = Some s /\ s <> ""%string.
Proof.
  split.
  - intros H. apply labelled_row_text in H as (H1 & H2 & H3). auto.
  - intros (-> & -> & Hs). unfold labelled_row.
    apply String.eqb_neq in Hs. rewrite Hs. now left.
Qed.

(** X10: when the component renders, the details never show an empty
    value.  The invoice cell shows the invoice number, or "N/A" for an
    empty one; the date cell shows date, a space and time when both are
    present and not empty, else "N/A"; the customer rows are exactly the
    Customer, Phone and Doctor rows of the fields of the customer details
    that are present and not empty, none without customer details; the
    payment row exists exactly for a payment method that is present and
    not empty. *)
Theorem details_never_show_an_empty_value :
  (forall (order : Order) (info : OrderInfo) (details : Details),
      receiptDetails order info = Normal details ->
      (invoice_number order = ""%string ->
       shownInvoice details = "N/A"%string) /\
      (invoice_number order <> ""%string ->
       shownInvoice details = invoice_number order) /\
      (forall d t, order_date info = Some d -> order_time info = Some t ->
         d <> ""%string -> t <> ""%string ->
         shownDate details = (d ++ " " ++ t)%string) /\
      (order_date info = None \/ order_date info = Some ""%string \/
       order_time info = None \/ order_time info = Some ""%string ->
       shownDate details = "N/A"%string) /\
      (forall label s, In (label, s) (shownCustomerRows details) <->
         s <> ""%string /\
         exists c, customerDetails info = Some c /\
           ((label = "Customer:"%string /\ customerName c = Some s) \/
            (label = "Phone:"%string /\ customerMobile c = Some s) \/
            (label = "Doctor:"%string /\ doctorName c = Some s))) /\
      (forall label s, In (label, s) (shownPaymentRows details) <->
         label = "Payment Method:"%string /\
         paymentMethod info = Some s /\ s <> ""%string) /\
      shownInvoice details <> ""%string /\
      shownDate details <> ""%string /\
      (List.length (shownCustomerRows details) <= 3)%nat) /\
  (exists details,
      receiptDetails (order_of unnamed_cart (number 0)) sample_info
      = Normal details /\
      shownInvoice details = "INV-1"%string /\
      shownDate details = "2024-01-05 10:30"%string /\
      shownCustomerRows details
      = [("Customer:", "Asha"); ("Doctor:", "Rao")]%string /\
      shownPaymentRows details = [("Payment Method:", "cash")]%string).
Proof.
  split; [| eexists; repeat split].
  intros order info details. unfold receiptDetails.
  destruct (gstSummary order) as [summary | e]; cbn [JS.bind];
    [| discriminate].
  intros [= <-].
  cbn [shownInvoice shownDate shownCustomerRows shownPaymentRows].
  assert (Hinv : invoice_number order <> ""%string ->
                 invoiceText order = invoice_number order).
  { intros H. unfold invoiceText. apply String.eqb_neq in H. now rewrite H. }
  assert (Hdate : forall d t, order_date info = Some d ->
            order_time info = Some t -> d <> ""%string -> t <> ""%string ->
            dateText info = (d ++ " " ++ t)%string).
  { intros d t Hd Ht Nd Nt. unfold dateText. rewrite Hd, Ht. cbn.
    apply String.eqb_neq in Nd, Nt. now rewrite Nd, Nt. }
  assert (Hna : order_date info = None \/ order_date info = Some ""%string \/
                order_time info = None \/ order_time info = Some ""%string ->
                dateText info = "N/A"%string).
  { unfold dateText. intros [H | [H | [H | H]]]; rewrite H; try reflexivity.
    - destruct (order_time info); reflexivity.
    - destruct (order_date info); reflexivity.
    - destruct (order_date info) as [d | ]; [| reflexivity].
      cbn. now rewrite andb_false_r. }
  split; [intros H; unfold invoiceText; now rewrite H |].
  split; [assumption |]. split; [assumption |]. split; [assumption |].
  split; [| split; [| split; [| split]]].
  - intros label s. unfold customerRows.
    destruct (customerDetails info) as [c | ].
    + rewrite !in_app_iff, !labelled_row_In. split.
      * intros [(-> & H & N) | [(-> & H & N) | (-> & H & N)]];
          (split; [assumption |]); exists c; split; auto.
      * intros (N & c' & [= <-] & [[-> H] | [[-> H] | [-> H]]]); auto.
    + split; [intros [] |]. intros (_ & c & H & _). discriminate.
  - intros label s. unfold paymentRows. apply labelled_row_In.
  - unfold invoiceText.
    destruct (invoice_number order =? "")%string eqn:E; [discriminate |].
    now apply String.eqb_neq in E.
  - destruct (order_date info) as [[ | a d] | ] eqn:Hd;
      try (rewrite Hna by auto; discriminate).
    destruct (order_time info) as [[ | b t] | ] eqn:Ht;
      try (rewrite Hna by auto; discriminate).
    rewrite (Hdate _ _ eq_refl eq_refl) by discriminate. discriminate.
  - unfold customerRows. destruct (customerDetails info) as [c | ];
      [| cbn; lia].
    rewrite !length_app. unfold labelled_row.
    destruct (customerName c) as [s1 | ], (customerMobile c) as [s2 | ],
      (doctorName c) as [s3 | ];
      repeat match goal with
      | |- context [(?s =? "")%string] => destruct (s =? "")%string
      end; cbn; lia.
Qed.

Lemma details_never_show_an_empty_value_witness :
  "2024-01-05 10:30"%string
  = ("2024-01-05" ++ " " ++ "10:30")%string.
Proof.
  destruct (proj1 details_never_show_an_empty_value
              (order_of unnamed_cart (number 0)) sample_info
              {| shownInvoice := "INV-1";
                 shownDate := "2024-01-05 10:30";
                 shownCustomerRows :=
                   [("Customer:", "Asha"); ("Doctor:", "Rao")]%string;
                 shownItemRows := map itemRow unnamed_cart;
                 shownPaymentRows := [("Payment Method:", "cash")]%string |}
              eq_refl)
    as (_ & _ & Hd & _).
  apply (Hd "2024-01-05"%string "10:30"%string);
    [reflexivity | reflexivity | discriminate | discriminate].
Defined.

(** ** No discount *)

Lemma sub_zero_r x : x - 0 = x.
Proof.
  apply Prim2SF_inj. rewrite sub_spec.
  change (Prim2SF 0) with (S754_zero false). unfold SF64sub.
  destruct (Prim2SF x) as [[ | ] | [ | ] | | s m e]; reflexivity.
Qed.

(** X11: when the discount percentage is falsy (absent, null, zero or NaN)
    the receipt has no discount row and the amount payable is the total
    amount itself, whatever that number is. *)
Theorem no_discount_payable_is_total (order : Order) (totals : Totals) :
  OrderHistoryReceipt (Some order) = Normal (Some totals) ->
  ToBoolean (discount_percentage order) = false ->
  shownDiscount totals = None /\
  shownPayable totals = shownTotalAmount totals.
Proof.
  unfold OrderHistoryReceipt.
  destruct (gstSummary order) as [summary | e]; cbn [JS.bind];
    [| discriminate].
  intros [= <-] F. cbn [shownDiscount shownPayable shownTotalAmount].
  unfold finalAmount, discountAmount. rewrite F, sub_zero_r.
  split; [| reflexivity].
  unfold JS.gt. destruct (discount_percentage order) as [ | | f];
    try reflexivity.
  cbn [ToNumber]. destruct (0 <? f) eqn:P; [| reflexivity].
  apply positive_truthy in P as [Z N]. cbn [ToBoolean] in F.
  rewrite Z, N in F. discriminate.
Qed.

Lemma no_discount_payable_is_total_witness :
  (None : option float) = None /\ 200 = 200.
Proof.
  apply (no_discount_payable_is_total
           (order_of scenario_cart undefined)
           {| shownTotalAmount := 200; shownDiscount := None;
              shownTaxableValue := 164; shownCgstRates := "9";
              shownCgstAmount := 18; shownSgstRates := "9";
              shownSgstAmount := 18; shownTotalTax := 36;
              shownPayable := 200 |});
    vm_compute; reflexivity.
Defined.
